(** * ACL (Astronomy Class Library): keyword views and the CAstroFile facade

  A shallow embedding of
    - [source/FITSKeywordUInt16.cpp]: the conversion operators of
      [CFITSKeywordUInt16];
    - [include/AstroFile.h]: the data members of [CAstroFile] and the member
      functions whose bodies are given inline in the class;
    - [Include/HDBImage.h]: the interface of [CImageHDB].

  Member functions that are only declared in these headers are modelled
  from the specification; every such definition says so in its doc
  comment. *)

From Stdlib Require Import ZArith List String Ascii Bool Lia.
From Stdlib Require Import Floats.SpecFloat.
From Stdlib Require Import QArith Qpower.
From Stdlib Require Import DecimalString.
From Stdlib Require Import Reals Lra.
Import ListNotations.

Local Open Scope Z_scope.

(** ** Error kinds and results

  A C++ member function either returns a value or throws.  The kinds are
  those of the error-handling design; [std::range_error] is [RangeError]. *)

Inductive ErrorKind : Type :=
| NotFound
| RangeError
| OutOfRange
| InvalidArgument
| InconsistentState
| Unsupported.

Inductive result (A : Type) : Type :=
| Ok (a : A)
| Throw (e : ErrorKind).

Arguments Ok {A} a.
Arguments Throw {A} e.

(** ** Fixed-width integers

  A w-bit integer is a [Z]; [static_cast] to a w-bit type is reduction
  modulo [2^w], into the signed or the unsigned range. *)

Module Int.

Definition umax (w : Z) : Z := 2 ^ w - 1.
Definition smin (w : Z) : Z := - 2 ^ (w - 1).
Definition smax (w : Z) : Z := 2 ^ (w - 1) - 1.

Definition in_unsigned (w z : Z) : Prop := 0 <= z <= umax w.
Definition in_signed (w z : Z) : Prop := smin w <= z <= smax w.

Definition cast_unsigned (w z : Z) : Z := z mod 2 ^ w.
Definition cast_signed (w z : Z) : Z :=
  (z + 2 ^ (w - 1)) mod 2 ^ w - 2 ^ (w - 1).

End Int.

(** ** Binary floating point

  [float] and [double] are IEEE-754 binary32 and binary64, as the
  Standard Library's [spec_float]: [static_cast] of an integer rounds it to
  nearest-even at the format's precision. *)

Module FP.

Definition float_prec : Z := 24.
Definition float_emax : Z := 128.
Definition double_prec : Z := 53.
Definition double_emax : Z := 1024.

Definition float_of_Z (z : Z) : spec_float :=
  binary_normalize float_prec float_emax z 0 false.
Definition double_of_Z (z : Z) : spec_float :=
  binary_normalize double_prec double_emax z 0 false.

(** The rational number a float denotes; infinities and NaN denote none. *)
Definition value (f : spec_float) : option Q :=
  match f with
  | S754_zero _ => Some 0%Q
  | S754_finite s m e =>
      Some (inject_Z (cond_Zopp s (Z.pos m)) * Qpower 2 e)%Q
  | S754_infinity _ | S754_nan => None
  end.

(** [denotes f z]: the float [f] is finite and its value is the integer
    [z]. *)
Definition denotes (f : spec_float) (z : Z) : Prop :=
  exists q, value f = Some q /\ Qeq q (inject_Z z).

(** The same, decided on integers: [m * 2^e = z], with the power moved to
    the other side when [e] is negative. *)
Definition denotesb (f : spec_float) (z : Z) : bool :=
  match f with
  | S754_zero _ => z =? 0
  | S754_finite s m e =>
      if 0 <=? e then cond_Zopp s (Z.pos m) * 2 ^ e =? z
      else cond_Zopp s (Z.pos m) =? z * 2 ^ (- e)
  | S754_infinity _ | S754_nan => false
  end.

End FP.

(** ** [std::to_string(int)]

    The decimal rendering, produced the way a formatter does: the least
    significant digit first, prepended to what is already there.  Ten digits
    are enough for a 32-bit [int]. *)

Definition digit_char (d : Z) : ascii := ascii_of_N (48 + Z.to_N d).

Fixpoint decimal_digits (fuel : nat) (n : Z) (acc : string) : string :=
  match fuel with
  | O => acc
  | S fuel' =>
      let acc' := String (digit_char (n mod 10)) acc in
      if n / 10 =? 0 then acc' else decimal_digits fuel' (n / 10) acc'
  end.

Definition to_string (n : Z) : string :=
  if n <? 0 then String "-"%char (decimal_digits 10 (- n) EmptyString)
  else decimal_digits 10 n EmptyString.

(** The Standard Library's decimal printer, the reference [to_string] is
    compared with. *)
Definition decimal_rendering (n : Z) : string :=
  NilZero.string_of_int (Z.to_int n).

(** ** CFITSKeywordUInt16 (source/FITSKeywordUInt16.cpp) *)

(** Modelled from the spec: the enumeration [KWType] is declared in
    FITSKeyword.h, which is not among the sources; one tag per member of the
    keyword value union.  [KWT_UINT16] is the tag the source returns. *)
Inductive KWType : Type :=
| KWT_INT8 | KWT_INT16 | KWT_INT32 | KWT_INT64
| KWT_UINT8 | KWT_UINT16 | KWT_UINT32
| KWT_FLOAT | KWT_DOUBLE | KWT_STRING | KWT_BOOL.

(** The base class [CFITSKeyword] holds [keyword_] and [comment_]; the
    derived class adds [value_], a [std::uint16_t] as its sibling
    [CFITSKeywordInt16] holds a [std::int16_t]. *)
Record CFITSKeywordUInt16 : Type := mkCFITSKeywordUInt16 {
  keyword_ : string;
  value_ : Z;
  comment_ : string
}.

Module UInt16.

(** The class invariant of the member [value_]: a [std::uint16_t]. *)
Definition wf (k : CFITSKeywordUInt16) : Prop := Int.in_unsigned 16 (value_ k).

(** [CFITSKeywordUInt16(keyword, value, comment)]: the argument is a
    [std::uint16_t], so whatever integer the caller passes is converted to
    16 bits first. *)
Definition create (keyword : string) (value : Z) (comment : string)
  : CFITSKeywordUInt16 :=
  mkCFITSKeywordUInt16 keyword (Int.cast_unsigned 16 value) comment.

(** [operator=] *)
Definition assign (this rhs : CFITSKeywordUInt16) : CFITSKeywordUInt16 :=
  mkCFITSKeywordUInt16 (keyword_ rhs) (value_ rhs) (comment_ rhs).

(** [createCopy()]: the copy constructor builds the base class from
    [keyword_] and [comment_] and then assigns; the value the member has
    before the assignment is never read. *)
Definition createCopy (this : CFITSKeywordUInt16) : CFITSKeywordUInt16 :=
  assign (mkCFITSKeywordUInt16 (keyword_ this) 0 (comment_ this)) this.

(** [type()] *)
Definition type (this : CFITSKeywordUInt16) : KWType := KWT_UINT16.

(** [operator std::int16_t()].  Both operands of each comparison are
    promoted to [int] (32 bits), which holds every [std::uint16_t] and every
    [std::int16_t]: the comparisons are those of the mathematical values. *)
Definition operator_int16_t (this : CFITSKeywordUInt16) : result Z :=
  if (value_ this <=? Int.smax 16) && (value_ this >=? Int.smin 16)
  then Ok (Int.cast_signed 16 (value_ this))
  else Throw RangeError.

(** [operator std::int32_t()] *)
Definition operator_int32_t (this : CFITSKeywordUInt16) : result Z :=
  Ok (Int.cast_signed 32 (value_ this)).

(** [operator std::int64_t()] *)
Definition operator_int64_t (this : CFITSKeywordUInt16) : result Z :=
  Ok (Int.cast_signed 64 (value_ this)).

(** [operator std::uint16_t()] *)
Definition operator_uint16_t (this : CFITSKeywordUInt16) : result Z :=
  Ok (value_ this).

(** [operator std::uint32_t()] *)
Definition operator_uint32_t (this : CFITSKeywordUInt16) : result Z :=
  Ok (Int.cast_unsigned 32 (value_ this)).

(** [operator float()] *)
Definition operator_float (this : CFITSKeywordUInt16) : result spec_float :=
  Ok (FP.float_of_Z (value_ this)).

(** [operator double()] *)
Definition operator_double (this : CFITSKeywordUInt16) : result spec_float :=
  Ok (FP.double_of_Z (value_ this)).

(** [operator std::string()] *)
Definition operator_string (this : CFITSKeywordUInt16) : result string :=
  Ok (to_string (value_ this)).

(** The float, double and string views of one value, checked together. *)
Definition wider_views_agree (v : Z) : bool :=
  let k := mkCFITSKeywordUInt16 EmptyString v EmptyString in
  match operator_float k, operator_double k, operator_string k with
  | Ok f, Ok d, Ok s =>
      FP.denotesb f v && FP.denotesb d v && String.eqb s (decimal_rendering v)
  | _, _, _ => false
  end.

End UInt16.

(** A bounded universal check: [P] holds of [z], [z+1], ..., [fuel] values. *)
Fixpoint all_from (fuel : nat) (z : Z) (P : Z -> bool) : bool :=
  match fuel with
  | O => true
  | S fuel' => if P z then all_from fuel' (z + 1) P else false
  end.

(** ** The keyword store *)

(** Modelled from the spec: the keyword value union.  The class hierarchy
    below [CFITSKeyword] (FITSKeyword.h and its siblings) is not among the
    sources apart from [CFITSKeywordUInt16]; the spec's Keyword Entry is a
    name, a tagged value and a comment. *)
Inductive KeywordValue : Type :=
| KV_Int8 (z : Z) | KV_Int16 (z : Z) | KV_Int32 (z : Z) | KV_Int64 (z : Z)
| KV_UInt8 (z : Z) | KV_UInt16 (z : Z) | KV_UInt32 (z : Z)
| KV_Float (f : spec_float) | KV_Double (f : spec_float)
| KV_String (s : string) | KV_Bool (b : bool).

(** Modelled from the spec: the base class [CFITSKeyword] (FITSKeyword.h),
    seen as the spec's Keyword Entry. *)
Record CFITSKeyword : Type := mkCFITSKeyword {
  keyword : string;
  value : KeywordValue;
  comment : string
}.

Definition DKeywordStore : Type := list CFITSKeyword.

Module Keyword.

(** The base-class view of a [CFITSKeywordUInt16]. *)
Definition upcast (k : CFITSKeywordUInt16) : CFITSKeyword :=
  mkCFITSKeyword (keyword_ k) (KV_UInt16 (value_ k)) (comment_ k).

Definition type (k : CFITSKeyword) : KWType :=
  match value k with
  | KV_Int8 _ => KWT_INT8 | KV_Int16 _ => KWT_INT16
  | KV_Int32 _ => KWT_INT32 | KV_Int64 _ => KWT_INT64
  | KV_UInt8 _ => KWT_UINT8 | KV_UInt16 _ => KWT_UINT16
  | KV_UInt32 _ => KWT_UINT32
  | KV_Float _ => KWT_FLOAT | KV_Double _ => KWT_DOUBLE
  | KV_String _ => KWT_STRING | KV_Bool _ => KWT_BOOL
  end.

(** Modelled from the spec: "lookup is case-normalized".  Names are compared
    after mapping ASCII lower-case letters to upper case. *)
Definition upper_char (c : ascii) : ascii :=
  let n := N_of_ascii c in
  if ((97 <=? n) && (n <=? 122))%N then ascii_of_N (n - 32) else c.

Fixpoint normalize (s : string) : string :=
  match s with
  | EmptyString => EmptyString
  | String c s' => String (upper_char c) (normalize s')
  end.

(** Modelled from the spec: equality of names under that normalisation. *)
Definition same_name (a b : string) : bool :=
  String.eqb (normalize a) (normalize b).

(** Modelled from the spec: [read(name)], absent when no entry has the
    name. *)
Fixpoint find (name : string) (store : DKeywordStore) : option CFITSKeyword :=
  match store with
  | [] => None
  | k :: rest => if same_name (keyword k) name then Some k else find name rest
  end.

(** Modelled from the spec: [exists(name) -> bool]. *)
Definition exists_ (name : string) (store : DKeywordStore) : bool :=
  match find name store with Some _ => true | None => false end.

(** Modelled from the spec: [write(name, value, comment)] "inserts or
    overwrites a typed entry, preserving insertion order for first-time
    names". *)
Fixpoint write (k : CFITSKeyword) (store : DKeywordStore) : DKeywordStore :=
  match store with
  | [] => [k]
  | k' :: rest =>
      if same_name (keyword k') (keyword k) then k :: rest
      else k' :: write k rest
  end.

(** Modelled from the spec: [delete(name) -> bool], "false if absent". *)
Fixpoint delete (name : string) (store : DKeywordStore)
  : bool * DKeywordStore :=
  match store with
  | [] => (false, [])
  | k :: rest =>
      if same_name (keyword k) name then (true, rest)
      else let (b, rest') := delete name rest in (b, k :: rest')
  end.

End Keyword.

(** ** The image payload *)

(** Modelled from the spec: [CAstroImage] (AstroImage.h) is not among the
    sources.  The spec's Image payload "owns a 2-D (optionally multi-plane)
    pixel buffer": a list of planes, one for a mono image and several for a
    poly image, each stored row by row, [width * height] pixel values.
    Extents are [AXIS_t], a signed integer. *)
Record CAstroImage : Type := mkCAstroImage {
  width : Z;
  height : Z;
  planes : list (list Z)
}.

Module Image.

(** A plane of a [w] by [h] image holds [w * h] pixels. *)
Definition plane_wf (w h : Z) (p : list Z) : Prop :=
  List.length p = Z.to_nat (w * h).

Definition wf (img : CAstroImage) : Prop :=
  0 <= width img /\ 0 <= height img /\
  Forall (plane_wf (width img) (height img)) (planes img).

(** Modelled from the spec: [isMonoImage()], declared in HDBImage.h: the
    buffer has one plane. *)
Definition isMonoImage (img : CAstroImage) : bool :=
  Nat.eqb (List.length (planes img)) 1.

(** Modelled from the spec: [isPolyImage()], declared in HDBImage.h: the
    buffer has more than one plane. *)
Definition isPolyImage (img : CAstroImage) : bool :=
  Nat.ltb 1 (List.length (planes img)).

(** The pixel in column [x] of row [y] of a plane of width [w]. *)
Definition pixel_at (w : Z) (p : list Z) (x y : Z) : Z :=
  nth (Z.to_nat (x + y * w)) p 0.

(** A [w] by [h] plane whose pixel at [(x, y)] is [f x y]. *)
Definition tabulate (w h : Z) (f : Z -> Z -> Z) : list Z :=
  map (fun i : nat => f (Z.of_nat i mod w) (Z.of_nat i / w))
      (seq 0 (Z.to_nat (w * h))).

(** Modelled from the spec: the mirror of one plane about the horizontal
    axis: row [y] becomes row [h - 1 - y]. *)
Definition flip_plane (w h : Z) (p : list Z) : list Z :=
  tabulate w h (fun x y => pixel_at w p x (h - 1 - y)).

(** Modelled from the spec: the mirror of one plane about the vertical axis:
    column [x] becomes column [w - 1 - x]. *)
Definition flop_plane (w h : Z) (p : list Z) : list Z :=
  tabulate w h (fun x y => pixel_at w p (w - 1 - x) y).

(** Modelled from the spec: [flip()], the mirror about the horizontal axis,
    of every plane. *)
Definition flip (img : CAstroImage) : CAstroImage :=
  mkCAstroImage (width img) (height img)
    (map (flip_plane (width img) (height img)) (planes img)).

(** Modelled from the spec: [flop()], the mirror about the vertical axis, of
    every plane. *)
Definition flop (img : CAstroImage) : CAstroImage :=
  mkCAstroImage (width img) (height img)
    (map (flop_plane (width img) (height img)) (planes img)).

(** Modelled from the spec: the region [origin, origin + extent) lies within
    the current extents. *)
Definition region_inside (img : CAstroImage) (xo yo xd yd : Z) : bool :=
  (0 <=? xo) && (0 <=? yo) && (0 <=? xd) && (0 <=? yd) &&
  (xo + xd <=? width img) && (yo + yd <=? height img).

(** Modelled from the spec: the region of one plane of width [w]. *)
Definition crop_plane (w xo yo xd yd : Z) (p : list Z) : list Z :=
  tabulate xd yd (fun x y => pixel_at w p (xo + x) (yo + y)).

(** Modelled from the spec: [crop(origin, extent)], which "with a requested
    region ... outside the current extents fails with OutOfRange"; the same
    region of every plane. *)
Definition crop (img : CAstroImage) (xo yo xd yd : Z) : result CAstroImage :=
  if region_inside img xo yo xd yd
  then Ok (mkCAstroImage xd yd
             (map (crop_plane (width img) xo yo xd yd) (planes img)))
  else Throw OutOfRange.

(** The image whose planes are given pixel by pixel. *)
Definition of_functions (w h : Z) (fs : list (Z -> Z -> Z)) : CAstroImage :=
  mkCAstroImage w h (map (tabulate w h) fs).

(** A mono image whose pixel at [(x, y)] is [x + y * w]. *)
Definition ramp (w h : Z) : CAstroImage :=
  of_functions w h [fun x y => x + y * w].

(** A poly image of three planes. *)
Definition colour (w h : Z) : CAstroImage :=
  of_functions w h
    [fun x y => x + y * w; fun x y => 2 * x + y; fun x y => x * y].

End Image.

(** ** Observation records *)

(** Modelled from the spec: the observation classes (Astrometry.h and the
    photometry headers) are not among the sources.  An observation record is
    "an identity plus a coordinate or flux measurement"; the identity is the
    object's name and the coordinate is a pixel position, a pair of [FP_t]
    read here as real numbers. *)
Record Observation : Type := mkObservation {
  objectName : string;
  CCDx : R;
  CCDy : R
}.

Module Observations.

(** Modelled from the spec: an observation with this identity is in the
    list. *)
Definition has (name : string) (l : list Observation) : bool :=
  existsb (fun o => String.eqb (objectName o) name) l.

(** Modelled from the spec: [addObservation(record) -> bool], "false if an
    observation with the same identity already exists". *)
Definition addObservation (o : Observation) (l : list Observation)
  : bool * list Observation :=
  if has (objectName o) l then (false, l) else (true, l ++ [o]).

(** Modelled from the spec: [removeObservation(identity) -> bool]. *)
Definition removeObservation (name : string) (l : list Observation)
  : bool * list Observation :=
  if has name l
  then (true, filter (fun o => negb (String.eqb (objectName o) name)) l)
  else (false, l).

(** Modelled from the spec: [count()]. *)
Definition count (l : list Observation) : nat := List.length l.

(** Modelled from the spec: the rotation "by the same angle about the same
    center": the position turns by [theta] (radians, counter-clockwise in
    pixel coordinates) about [(cx, cy)]. *)
Definition rotate (cx cy theta : R) (o : Observation) : Observation :=
  mkObservation (objectName o)
    (cx + (CCDx o - cx) * cos theta - (CCDy o - cy) * sin theta)%R
    (cy + (CCDx o - cx) * sin theta + (CCDy o - cy) * cos theta)%R.

(** Modelled from the spec: the position under a flip of an image of height
    [h], "coordinate-consistent" with the mirror about the horizontal
    axis. *)
Definition mirror_rows (h : R) (o : Observation) : Observation :=
  mkObservation (objectName o) (CCDx o) (h - CCDy o)%R.

(** Modelled from the spec: the position under a flop of an image of width
    [w]. *)
Definition mirror_columns (w : R) (o : Observation) : Observation :=
  mkObservation (objectName o) (w - CCDx o)%R (CCDy o).

(** Modelled from the spec: the position under a crop whose origin is
    [(dx, dy)]. *)
Definition translate (dx dy : R) (o : Observation) : Observation :=
  mkObservation (objectName o) (CCDx o - dx)%R (CCDy o - dy)%R.

End Observations.

(** ** Data blocks (Include/HDBImage.h) *)

(** Modelled from the spec: [struct WorldCoor] is declared in HDBImage.h and
    defined nowhere in the sources.  It is the spec's Coordinate Solution,
    which a geometric transform leaves "marked stale (not automatically
    discarded)": the terms of the pixel-to-sky mapping, opaque here, and the
    staleness flag.  The headers declare no accessor for the flag; the
    theorems read it from the member. *)
Record WorldCoor : Type := mkWorldCoor {
  terms : Z;
  stale : bool
}.

(** [EBlockType]: [BT_IMAGE] is the value [CImageHDB::HDBType] returns; the
    other names are modelled from the spec's kinds. *)
Inductive EBlockType : Type :=
| BT_IMAGE | BT_ATABLE | BT_BTABLE | BT_ASTROMETRY | BT_PHOTOMETRY.

(** The class hierarchy under [CHDB].  [CImageHDB] has the three data
    members HDBImage.h declares: [data], [pixelSize] and [WCSInformation],
    the two pointers as the values they point to and [WCSInformation]
    absent when the pointer is null; what [CAstroImage] and [WorldCoor]
    hold is modelled from the spec.  Every block owns a keyword store.  The
    observation lists of the two table specialisations are modelled from the
    spec. *)
Inductive CHDB : Type :=
| CImageHDB (keywords : DKeywordStore) (data : CAstroImage)
    (pixelSize : option (R * R)) (WCSInformation : option WorldCoor)
| CHDBAsciiTable (keywords : DKeywordStore)
| CHDBBinTable (keywords : DKeywordStore)
| CAstrometryHDB (keywords : DKeywordStore) (observations : list Observation)
| CHDBPhotometry (keywords : DKeywordStore) (observations : list Observation).

Module HDB.

(** [HDBType()] *)
Definition HDBType (b : CHDB) : EBlockType :=
  match b with
  | CImageHDB _ _ _ _ => BT_IMAGE
  | CHDBAsciiTable _ => BT_ATABLE
  | CHDBBinTable _ => BT_BTABLE
  | CAstrometryHDB _ _ => BT_ASTROMETRY
  | CHDBPhotometry _ _ => BT_PHOTOMETRY
  end.

Definition keywords (b : CHDB) : DKeywordStore :=
  match b with
  | CImageHDB kw _ _ _ | CHDBAsciiTable kw | CHDBBinTable kw
  | CAstrometryHDB kw _ | CHDBPhotometry kw _ => kw
  end.

Definition with_keywords (kw : DKeywordStore) (b : CHDB) : CHDB :=
  match b with
  | CImageHDB _ d p w => CImageHDB kw d p w
  | CHDBAsciiTable _ => CHDBAsciiTable kw
  | CHDBBinTable _ => CHDBBinTable kw
  | CAstrometryHDB _ o => CAstrometryHDB kw o
  | CHDBPhotometry _ o => CHDBPhotometry kw o
  end.

(** The observation list of a block that has one. *)
Definition observations (b : CHDB) : option (list Observation) :=
  match b with
  | CAstrometryHDB _ o | CHDBPhotometry _ o => Some o
  | _ => None
  end.

Definition with_observations (o : list Observation) (b : CHDB) : CHDB :=
  match b with
  | CAstrometryHDB kw _ => CAstrometryHDB kw o
  | CHDBPhotometry kw _ => CHDBPhotometry kw o
  | _ => b
  end.

Definition map_observations (f : Observation -> Observation) (b : CHDB)
  : CHDB :=
  match observations b with
  | Some o => with_observations (map f o) b
  | None => b
  end.

(** Modelled from the spec: a geometric transform leaves a present
    Coordinate Solution in place, its terms as they were ("flagged, not
    auto-recomputed"), and flags it stale.  The class comment of
    [CAstroFile] announces that "the WCS information will be rotated. (If I
    can work out the maths)". *)
Definition mark_stale (w : option WorldCoor) : option WorldCoor :=
  option_map (fun c => mkWorldCoor (terms c) true) w.

End HDB.

(** ** The file aggregate (include/AstroFile.h) *)

(** The records of the observation context belong to other headers and are
    handles here. *)
Definition CObservatory : Type := Z.
Definition CWeather : Type := Z.
Definition CAstroTime : Type := Z.
Definition CTargetAstronomy : Type := Z.
Definition CTelescope : Type := Z.

Definition DHDBStore : Type := list CHDB.

(** The data members of [CAstroFile], in the order of the class; the static
    member [HDBRegister] belongs to the process and is passed where it is
    read.  The two back-references are shared pointers to blocks that [HDB] also holds:
    they are positions in [HDB], so that a block has one state however it is
    reached. *)
Record CAstroFile : Type := mkCAstroFile {
  astrometryHDB_ : option nat;
  photometryHDB_ : option nat;
  imageName_ : string;
  observationLocation : option CObservatory;
  observationWeather : option CWeather;
  observationTime : option CAstroTime;
  observationTarget : option CTargetAstronomy;
  observationTelescope : option CTelescope;
  HDB : DHDBStore;
  bDirty : bool;
  bHasData : bool
}.

(** Modelled from the spec: what a decoder hands over for one block, "(kind,
    keyword entries, raw payload bytes)".  The source passes cfitsio's
    [fitsfile *]. *)
Record fitsfile : Type := mkfitsfile {
  signature : string;
  header : DKeywordStore;
  raw : list Z
}.

(** [struct SHDBRegister]; [HDBClassName] is a function of no argument. *)
Record SHDBRegister : Type := mkSHDBRegister {
  HDBClassName : string;
  testFunction : fitsfile -> bool;
  createFunction : CAstroFile -> fitsfile -> CHDB
}.

Definition DHDBRegister : Type := list SHDBRegister.

(** ** The registry of block types *)

Module Registry.

(** Modelled from the spec: [HDBRegisterClass], whose body is not among the
    sources: "registration is append-only".  The first component is the
    function's [bool]. *)
Definition HDBRegisterClass (toRegister : SHDBRegister)
  (HDBRegister : DHDBRegister) : bool * DHDBRegister :=
  (true, HDBRegister ++ [toRegister]).

(** Modelled from the spec: the entry consulted for a decoded record, the
    first in registration order whose [testFunction] accepts it. *)
Definition resolve (HDBRegister : DHDBRegister) (file : fitsfile)
  : option SHDBRegister :=
  List.find (fun e => testFunction e file) HDBRegister.

(** Modelled from the spec: [HDBCreateClass], whose body is not among the
    sources: the registry is "consulted whenever an external decoder needs to
    materialize the correct Block variant for a loaded record".  No block
    (a null [PHDB]) when no entry accepts the record. *)
Definition HDBCreateClass (HDBRegister : DHDBRegister) (this : CAstroFile)
  (file : fitsfile) : option CHDB :=
  option_map (fun e => createFunction e this file) (resolve HDBRegister file).

(** Modelled from the spec: a test that recognises one signature. *)
Definition accepts (sig : string) (file : fitsfile) : bool :=
  String.eqb (signature file) sig.

End Registry.

(** ** Operations of an image block (Include/HDBImage.h) *)

Module ImageHDB.

(** Modelled from the spec: [width()], the extent of the pixel buffer; the
    body is not among the sources. *)
Definition width (b : CHDB) : Z :=
  match b with CImageHDB _ d _ _ => width d | _ => 0 end.

(** Modelled from the spec: [height()]. *)
Definition height (b : CHDB) : Z :=
  match b with CImageHDB _ d _ _ => height d | _ => 0 end.

(** Modelled from the spec: a geometric operation of an Image block applies
    the operation to the pixel buffer and flags the Coordinate Solution; a
    block of another kind does not implement it. *)
Definition transform (op : CAstroImage -> result CAstroImage) (b : CHDB)
  : result CHDB :=
  match b with
  | CImageHDB kw d p w =>
      match op d with
      | Ok d' => Ok (CImageHDB kw d' p (HDB.mark_stale w))
      | Throw e => Throw e
      end
  | _ => Throw Unsupported
  end.

(** Modelled from the spec: [imageFlip()]. *)
Definition imageFlip (b : CHDB) : result CHDB :=
  transform (fun d => Ok (Image.flip d)) b.

(** Modelled from the spec: [imageFlop()]. *)
Definition imageFlop (b : CHDB) : result CHDB :=
  transform (fun d => Ok (Image.flop d)) b.

(** Modelled from the spec: [imageCrop(origen, dims)]. *)
Definition imageCrop (xo yo xd yd : Z) (b : CHDB) : result CHDB :=
  transform (fun d => Image.crop d xo yo xd yd) b.

Section Rotation.

(** The resampling of the pixel buffer under a rotation is numerical work
    the spec leaves to the image class: any function will do here. *)
Variable rotatePixels : R -> CAstroImage -> CAstroImage.

(** Modelled from the spec: [imageRotate(angle)]. *)
Definition imageRotate (angle : R) (b : CHDB) : result CHDB :=
  transform (fun d => Ok (rotatePixels angle d)) b.

End Rotation.

End ImageHDB.

(** ** Reading a keyword as a type *)

Module KeywordView.

(** The conversion operators every keyword class declares
    (include/FITSKeywordInt16.h). *)
Inductive Target : Type :=
| int8_t | int16_t | int32_t | int64_t
| uint8_t | uint16_t | uint32_t
| float | double | string.

Definition tagged {A : Type} (tag : A -> KeywordValue) (r : result A)
  : result KeywordValue :=
  match r with
  | Ok a => Ok (tag a)
  | Throw e => Throw e
  end.

(** The derived-class view of a keyword whose value is a [std::uint16_t]. *)
Definition downcast (k : CFITSKeyword) (z : Z) : CFITSKeywordUInt16 :=
  mkCFITSKeywordUInt16 (keyword k) z (comment k).

(** The conversion of a keyword to a type.  A keyword that holds a
    [std::uint16_t] runs the operators of FITSKeywordUInt16.cpp.  The
    converting functions of the other keyword classes, and the two operators
    that file does not define, are not among the sources: they are whatever
    [other] is. *)
Definition view (other : Target -> CFITSKeyword -> result KeywordValue)
  (t : Target) (k : CFITSKeyword) : result KeywordValue :=
  match value k with
  | KV_UInt16 z =>
      match t with
      | int16_t => tagged KV_Int16 (UInt16.operator_int16_t (downcast k z))
      | int32_t => tagged KV_Int32 (UInt16.operator_int32_t (downcast k z))
      | int64_t => tagged KV_Int64 (UInt16.operator_int64_t (downcast k z))
      | uint16_t => tagged KV_UInt16 (UInt16.operator_uint16_t (downcast k z))
      | uint32_t => tagged KV_UInt32 (UInt16.operator_uint32_t (downcast k z))
      | float => tagged KV_Float (UInt16.operator_float (downcast k z))
      | double => tagged KV_Double (UInt16.operator_double (downcast k z))
      | string => tagged KV_String (UInt16.operator_string (downcast k z))
      | int8_t | uint8_t => other t k
      end
  | _ => other t k
  end.

End KeywordView.

(** ** The facade of [CAstroFile] *)

Module Facade.

(** A member function runs on the aggregate, returns or throws, and leaves
    the aggregate in the state it had reached: what was assigned before a
    throw stays assigned. *)
Definition M (A : Type) : Type := CAstroFile -> result A * CAstroFile.

Definition ret {A : Type} (a : A) : M A := fun this => (Ok a, this).

Definition throw {A : Type} (e : ErrorKind) : M A :=
  fun this => (Throw e, this).

Definition bind {A B : Type} (c : M A) (k : A -> M B) : M B :=
  fun this =>
    match c this with
    | (Ok a, this') => k a this'
    | (Throw e, this') => (Throw e, this')
    end.

Definition get : M CAstroFile := fun this => (Ok this, this).

Definition modify (f : CAstroFile -> CAstroFile) : M unit :=
  fun this => (Ok tt, f this).

Definition lift {A : Type} (r : result A) : M A :=
  match r with Ok a => ret a | Throw e => throw e end.

Declare Scope facade_scope.
Delimit Scope facade_scope with facade.
Notation "x <- c ;; k" := (bind c (fun x => k))
  (at level 61, c at next level, right associativity) : facade_scope.
Notation "c ;;; k" := (bind c (fun _ => k))
  (at level 61, right associativity) : facade_scope.
Local Open Scope facade_scope.

(** Assignments to single data members. *)
Definition set_bDirty (b : bool) (f : CAstroFile) : CAstroFile :=
  mkCAstroFile (astrometryHDB_ f) (photometryHDB_ f) (imageName_ f)
    (observationLocation f) (observationWeather f) (observationTime f)
    (observationTarget f) (observationTelescope f) (HDB f) b (bHasData f).

Definition set_bHasData (b : bool) (f : CAstroFile) : CAstroFile :=
  mkCAstroFile (astrometryHDB_ f) (photometryHDB_ f) (imageName_ f)
    (observationLocation f) (observationWeather f) (observationTime f)
    (observationTarget f) (observationTelescope f) (HDB f) (bDirty f) b.

Definition set_imageName_ (n : string) (f : CAstroFile) : CAstroFile :=
  mkCAstroFile (astrometryHDB_ f) (photometryHDB_ f) n
    (observationLocation f) (observationWeather f) (observationTime f)
    (observationTarget f) (observationTelescope f) (HDB f) (bDirty f)
    (bHasData f).

Definition set_HDB (h : DHDBStore) (f : CAstroFile) : CAstroFile :=
  mkCAstroFile (astrometryHDB_ f) (photometryHDB_ f) (imageName_ f)
    (observationLocation f) (observationWeather f) (observationTime f)
    (observationTarget f) (observationTelescope f) h (bDirty f) (bHasData f).

Definition set_astrometryHDB_ (r : option nat) (f : CAstroFile) : CAstroFile :=
  mkCAstroFile r (photometryHDB_ f) (imageName_ f)
    (observationLocation f) (observationWeather f) (observationTime f)
    (observationTarget f) (observationTelescope f) (HDB f) (bDirty f)
    (bHasData f).

Definition set_photometryHDB_ (r : option nat) (f : CAstroFile) : CAstroFile :=
  mkCAstroFile (astrometryHDB_ f) r (imageName_ f)
    (observationLocation f) (observationWeather f) (observationTime f)
    (observationTarget f) (observationTelescope f) (HDB f) (bDirty f)
    (bHasData f).

(** *** Member functions defined in the class *)

(** [bool isDirty() const { return bDirty; }] *)
Definition isDirty : M bool := fun this => (Ok (bDirty this), this).

(** [bool hasData() const { return bHasData; }] *)
Definition hasData : M bool := fun this => (Ok (bHasData this), this).

(** [void isDirty(bool b) const { bDirty = b; }]: the member is [mutable],
    so the function is callable on a const aggregate. *)
Definition isDirty_set (b : bool) : M unit := modify (set_bDirty b).

(** [void hasData(bool b) const { bHasData = b; }] *)
Definition hasData_set (b : bool) : M unit := modify (set_bHasData b).

(** [void imageName(std::string const &imageName) { imageName_ = imageName; }] *)
Definition imageName (name : string) : M unit := modify (set_imageName_ name).

(** [size_t HDBCount() const { return HDB.size(); }] *)
Definition HDBCount : M nat := fun this => (Ok (List.length (HDB this)), this).

(** [CTelescope *getObservationTelescope() { return observationTelescope.get(); }] *)
Definition getObservationTelescope : M (option CTelescope) :=
  fun this => (Ok (observationTelescope this), this).

(** *** Member functions that are only declared *)

Fixpoint update_nth {A : Type} (i : nat) (f : A -> A) (l : list A) : list A :=
  match l, i with
  | [], _ => []
  | x :: l', O => f x :: l'
  | x :: l', S i' => x :: update_nth i' f l'
  end.

(** Modelled from the spec: the facade routes "every per-block operation by a
    zero-based index"; an index that addresses no block is an
    [InvalidArgument]. *)
Definition getHDB (hdb : nat) : M CHDB :=
  this <- get ;;
  match nth_error (HDB this) hdb with
  | Some b => ret b
  | None => throw InvalidArgument
  end.

(** Modelled from the spec: a block is "mutated in place": block [hdb] is
    replaced where it stands. *)
Definition putHDB (hdb : nat) (b : CHDB) : M unit :=
  modify (fun this => set_HDB (update_nth hdb (fun _ => b) (HDB this)) this).

(** Modelled from the spec: [HDBAdd], "blocks are appended, never
    reordered"; the aggregate has data once it has a block. *)
Definition HDBAdd (b : CHDB) : M unit :=
  modify (fun this => set_HDB (HDB this ++ [b]) this) ;;;
  hasData_set true ;;;
  isDirty_set true.

(** Modelled from the spec: [createPrimaryImageHDB], the "explicit creation
    of a primary Image block", which is block 0; [false] when the aggregate
    already has a primary block. *)
Definition createPrimaryImageHDB : M bool :=
  this <- get ;;
  match HDB this with
  | [] => HDBAdd (CImageHDB [] (mkCAstroImage 0 0 []) None None) ;;; ret true
  | _ :: _ => ret false
  end.

(** Modelled from the spec: the load path "turns each record into the
    correct Block variant via the registry".  Every record is resolved before
    a block is added; a record no entry accepts is [Unsupported]. *)
Fixpoint createAll (HDBRegister : DHDBRegister) (this : CAstroFile)
  (files : list fitsfile) : result (list CHDB) :=
  match files with
  | [] => Ok []
  | f :: rest =>
      match Registry.HDBCreateClass HDBRegister this f with
      | None => Throw Unsupported
      | Some b =>
          match createAll HDBRegister this rest with
          | Ok bs => Ok (b :: bs)
          | Throw e => Throw e
          end
      end
  end.

(** Modelled from the spec: the blocks of a load are appended in the order
    of the records. *)
Fixpoint addAll (bs : list CHDB) : M unit :=
  match bs with
  | [] => ret tt
  | b :: rest => HDBAdd b ;;; addAll rest
  end.

(** Modelled from the spec: [loadFromFITS], on the records of a decoded
    file. *)
Definition loadFromFITS (HDBRegister : DHDBRegister) (files : list fitsfile)
  : M unit :=
  this <- get ;;
  bs <- lift (createAll HDBRegister this files) ;;
  addAll bs.

(** Modelled from the spec: [keywordData], like the other keyword functions
    a "pure pass-through to the addressed block's Keyword Store"; an absent
    keyword is [NotFound]. *)
Definition keywordData (hdb : nat) (name : string) : M CFITSKeyword :=
  b <- getHDB hdb ;;
  match Keyword.find name (HDB.keywords b) with
  | Some k => ret k
  | None => throw NotFound
  end.

(** Modelled from the spec: [keywordExists]. *)
Definition keywordExists (hdb : nat) (name : string) : M bool :=
  b <- getHDB hdb ;;
  ret (Keyword.exists_ name (HDB.keywords b)).

(** Modelled from the spec: [keywordCount]. *)
Definition keywordCount (hdb : nat) : M nat :=
  b <- getHDB hdb ;;
  ret (List.length (HDB.keywords b)).

(** Modelled from the spec: [keywordType], the stored tag. *)
Definition keywordType (hdb : nat) (name : string) : M KWType :=
  k <- keywordData hdb name ;;
  ret (Keyword.type k).

(** Modelled from the spec: [keywordWrite].  The synchronisation of the
    observation context with the linked keywords works on records that are
    handles here and is left out. *)
Definition keywordWrite (hdb : nat) (k : CFITSKeyword) : M unit :=
  b <- getHDB hdb ;;
  putHDB hdb (HDB.with_keywords (Keyword.write k (HDB.keywords b)) b) ;;;
  isDirty_set true.

(** Modelled from the spec: the [keywordWrite] overload for a
    [std::uint16_t] value. *)
Definition keywordWrite_uint16 (hdb : nat) (name : string) (v : Z)
  (c : string) : M unit :=
  keywordWrite hdb (Keyword.upcast (UInt16.create name v c)).

(** Modelled from the spec: [keywordDelete], "false if absent". *)
Definition keywordDelete (hdb : nat) (name : string) : M bool :=
  b <- getHDB hdb ;;
  let (found, kw) := Keyword.delete name (HDB.keywords b) in
  if found
  then putHDB hdb (HDB.with_keywords kw b) ;;; isDirty_set true ;;; ret true
  else ret false.

(** Modelled from the spec: the block a back-reference designates must be
    there and of the kind the reference is for; anything else is an
    [InconsistentState]. *)
Definition isKind (kind : EBlockType) (b : CHDB) : bool :=
  match kind, b with
  | BT_ASTROMETRY, CAstrometryHDB _ _ => true
  | BT_PHOTOMETRY, CHDBPhotometry _ _ => true
  | _, _ => false
  end.

(** The back-reference for a kind of observation block. *)
Definition backReference (kind : EBlockType) (this : CAstroFile)
  : option nat :=
  match kind with
  | BT_ASTROMETRY => astrometryHDB_ this
  | BT_PHOTOMETRY => photometryHDB_ this
  | _ => None
  end.

(** Modelled from the spec: the check that a back-reference designates a
    block of its kind. *)
Definition checkReference (kind : EBlockType) : M unit :=
  this <- get ;;
  match backReference kind this with
  | None => ret tt
  | Some i =>
      match nth_error (HDB this) i with
      | Some b => if isKind kind b then ret tt else throw InconsistentState
      | None => throw InconsistentState
      end
  end.

(** Modelled from the spec: [createAstrometryHDB] and [createPhotometryHDB].
    "At most one Astrometry block and one Photometry block are tracked via
    back-reference": the block is appended when there is none yet.  The
    result is the block's position. *)
Definition createObservationHDB (kind : EBlockType) : M nat :=
  this <- get ;;
  match backReference kind this with
  | Some i => ret i
  | None =>
      let i := List.length (HDB this) in
      match kind with
      | BT_ASTROMETRY =>
          modify (fun f => set_astrometryHDB_ (Some i)
                             (set_HDB (HDB f ++ [CAstrometryHDB [] []]) f)) ;;;
          isDirty_set true ;;; ret i
      | BT_PHOTOMETRY =>
          modify (fun f => set_photometryHDB_ (Some i)
                             (set_HDB (HDB f ++ [CHDBPhotometry [] []]) f)) ;;;
          isDirty_set true ;;; ret i
      | _ => throw Unsupported
      end
  end.

(** Modelled from the spec: [createAstrometryHDB]. *)
Definition createAstrometryHDB : M nat := createObservationHDB BT_ASTROMETRY.

(** Modelled from the spec: [createPhotometryHDB]. *)
Definition createPhotometryHDB : M nat := createObservationHDB BT_PHOTOMETRY.

(** Modelled from the spec: the observation list behind a back-reference;
    an aggregate without the block does not support the operation. *)
Definition observationList (kind : EBlockType)
  : M (nat * list Observation) :=
  this <- get ;;
  match backReference kind this with
  | None => throw Unsupported
  | Some i =>
      checkReference kind ;;;
      match nth_error (HDB this) i with
      | Some b =>
          match HDB.observations b with
          | Some l => ret (i, l)
          | None => throw InconsistentState
          end
      | None => throw InconsistentState
      end
  end.

(** Modelled from the spec: [astrometryObjectAdd] and [photometryObjectAdd],
    the facade's [addObservation(record) -> bool]. *)
Definition objectAdd (kind : EBlockType) (o : Observation) : M bool :=
  il <- observationList kind ;;
  let (added, l') := Observations.addObservation o (snd il) in
  if added
  then modify (fun this =>
                 set_HDB (update_nth (fst il) (HDB.with_observations l')
                            (HDB this)) this) ;;;
       isDirty_set true ;;; ret true
  else ret false.

(** Modelled from the spec: [astrometryObjectAdd]. *)
Definition astrometryObjectAdd : Observation -> M bool :=
  objectAdd BT_ASTROMETRY.

(** Modelled from the spec: [photometryObjectAdd]. *)
Definition photometryObjectAdd : Observation -> M bool :=
  objectAdd BT_PHOTOMETRY.

(** Modelled from the spec: [astrometryObjectRemove] and
    [photometryObjectRemove]. *)
Definition objectRemove (kind : EBlockType) (name : string) : M bool :=
  il <- observationList kind ;;
  let (removed, l') := Observations.removeObservation name (snd il) in
  if removed
  then modify (fun this =>
                 set_HDB (update_nth (fst il) (HDB.with_observations l')
                            (HDB this)) this) ;;;
       isDirty_set true ;;; ret true
  else ret false.

(** Modelled from the spec: [astrometryObjectRemove]. *)
Definition astrometryObjectRemove : string -> M bool :=
  objectRemove BT_ASTROMETRY.

(** Modelled from the spec: [photometryObjectRemove]. *)
Definition photometryObjectRemove : string -> M bool :=
  objectRemove BT_PHOTOMETRY.

(** Modelled from the spec: [astrometryObjectCount] and
    [photometryObjectCount], the facade's [count()]. *)
Definition objectCount (kind : EBlockType) : M nat :=
  il <- observationList kind ;;
  ret (Observations.count (snd il)).

(** Modelled from the spec: [astrometryObjectCount]. *)
Definition astrometryObjectCount : M nat := objectCount BT_ASTROMETRY.

(** Modelled from the spec: [photometryObjectCount]. *)
Definition photometryObjectCount : M nat := objectCount BT_PHOTOMETRY.

(** Modelled from the spec: the propagation of a geometric operation on the
    primary image, block 0, to "the coordinate fields of any
    Astrometry/Photometry observation lists".  [onReference r f l] applies
    [f] to the block [r] designates. *)
Definition onReference (r : option nat) (f : CHDB -> CHDB) (l : DHDBStore)
  : DHDBStore :=
  match r with
  | Some i => update_nth i f l
  | None => l
  end.

(** Modelled from the spec: [f] applied to "every stored position" of both
    observation lists. *)
Definition propagate (f : Observation -> Observation) : M unit :=
  modify (fun this =>
    set_HDB (onReference (photometryHDB_ this) (HDB.map_observations f)
               (onReference (astrometryHDB_ this) (HDB.map_observations f)
                  (HDB this))) this).

(** Modelled from the spec: one geometric operation, "executed as one atomic
    unit ... validating all preconditions (shape, bounds) before mutating
    anything": the block is looked up, the operation is computed, the
    back-references are checked, and only then are the block replaced, the
    observations moved and the aggregate flagged dirty. *)
Definition geometric (hdb : nat) (op : CHDB -> result CHDB)
  (move : CHDB -> Observation -> Observation) : M unit :=
  b <- getHDB hdb ;;
  b' <- lift (op b) ;;
  (if Nat.eqb hdb 0
   then checkReference BT_ASTROMETRY ;;; checkReference BT_PHOTOMETRY
   else ret tt) ;;;
  putHDB hdb b' ;;;
  (if Nat.eqb hdb 0 then propagate (move b) else ret tt) ;;;
  isDirty_set true.

(** Modelled from the spec: [flipImage]. *)
Definition flipImage (hdb : nat) : M unit :=
  geometric hdb ImageHDB.imageFlip
    (fun b => Observations.mirror_rows (IZR (ImageHDB.height b))).

(** Modelled from the spec: [flopImage]. *)
Definition flopImage (hdb : nat) : M unit :=
  geometric hdb ImageHDB.imageFlop
    (fun b => Observations.mirror_columns (IZR (ImageHDB.width b))).

(** Modelled from the spec: [imageCrop]. *)
Definition imageCrop (hdb : nat) (xo yo xd yd : Z) : M unit :=
  geometric hdb (ImageHDB.imageCrop xo yo xd yd)
    (fun _ => Observations.translate (IZR xo) (IZR yo)).

(** The state a successful geometric operation leaves. *)
Definition geometric_state (hdb : nat) (b b' : CHDB)
  (move : CHDB -> Observation -> Observation) (this : CAstroFile)
  : CAstroFile :=
  let replaced :=
    set_HDB (update_nth hdb (fun _ => b') (HDB this)) this in
  set_bDirty true
    (if Nat.eqb hdb 0
     then set_HDB
            (onReference (photometryHDB_ replaced)
               (HDB.map_observations (move b))
               (onReference (astrometryHDB_ replaced)
                  (HDB.map_observations (move b)) (HDB replaced))) replaced
     else replaced).

(** Modelled from the spec: the centre of an image, half its extents. *)
Definition centreX (b : CHDB) : R := (IZR (ImageHDB.width b) / 2)%R.

(** Modelled from the spec: the centre's ordinate. *)
Definition centreY (b : CHDB) : R := (IZR (ImageHDB.height b) / 2)%R.

Section Rotation.

Variable rotatePixels : R -> CAstroImage -> CAstroImage.

(** Modelled from the spec: [rotateImage], "a rotate of the primary image by
    angle theta about its center must rotate every stored
    astrometric/photometric pixel-position observation by the same theta
    about the same center". *)
Definition rotateImage (hdb : nat) (angle : R) : M unit :=
  geometric hdb (ImageHDB.imageRotate rotatePixels angle)
    (fun b => Observations.rotate (centreX b) (centreY b) angle).

End Rotation.


(** *** The rest of the keyword facade and of the image-transform facade *)

(** The work the sources and the spec leave open: the numerical work of the
    image class (the pixel values after a rotation, a resampling or a
    binning; [imageFloat] and the affine transform with their checks, of
    which the spec says nothing or gives the name only, and where they take
    an observation) and the conversions of the keyword classes whose bodies
    are not among the sources.  Every theorem about [run] holds whatever
    these functions are. *)
Record Collaborators : Type := mkCollaborators {
  rotation : R -> CAstroImage -> CAstroImage;
  resampling : Z -> Z -> CAstroImage -> CAstroImage;
  binning : Z -> CAstroImage -> CAstroImage;
  floating : Z -> Z -> Z -> CAstroImage -> result CAstroImage;
  floatingMove : Z -> Z -> CHDB -> Observation -> Observation;
  transformation :
    R * R -> R * R -> R -> R -> R * R -> CAstroImage -> result CAstroImage;
  transformationMove :
    R * R -> R * R -> R -> R -> CHDB -> Observation -> Observation;
  conversion : KeywordView.Target -> CFITSKeyword -> result KeywordValue
}.

(** Modelled from the spec: the read of a keyword as a type,
    [keywordData(hdb, name)] followed by a conversion operator of the
    keyword it returns: "reading a value as a numeric type narrower than
    stored must fail with RangeError if the stored magnitude does not
    fit". *)
Definition keywordView
  (other : KeywordView.Target -> CFITSKeyword -> result KeywordValue)
  (hdb : nat) (name : string) (t : KeywordView.Target) : M KeywordValue :=
  k <- keywordData hdb name ;;
  lift (KeywordView.view other t k).

(** Modelled from the spec: [keywordData(hdb, name, value, comment)], the
    overload that returns a [bool] and fills two strings: [false], here no
    strings, for an absent keyword; the value is the string view of the
    keyword. *)
Definition keywordData_strings
  (other : KeywordView.Target -> CFITSKeyword -> result KeywordValue)
  (hdb : nat) (name : string) : M (option (KeywordValue * string)) :=
  b <- getHDB hdb ;;
  match Keyword.find name (HDB.keywords b) with
  | None => ret None
  | Some k =>
      v <- lift (KeywordView.view other KeywordView.string k) ;;
      ret (Some (v, comment k))
  end.

(** Modelled from the spec: [keywords(hdb)], the keyword store of a
    block. *)
Definition keywords (hdb : nat) : M DKeywordStore :=
  b <- getHDB hdb ;;
  ret (HDB.keywords b).

(** Modelled from the spec: the typed [keywordWrite] overloads, "pure
    pass-throughs" that build the entry of the type of their argument; an
    integer argument has the width of its type. *)
Definition keywordWrite_int8 (hdb : nat) (name : string) (v : Z)
  (c : string) : M unit :=
  keywordWrite hdb (mkCFITSKeyword name (KV_Int8 (Int.cast_signed 8 v)) c).

(** Modelled from the spec: [keywordWrite] of a [std::int16_t]. *)
Definition keywordWrite_int16 (hdb : nat) (name : string) (v : Z)
  (c : string) : M unit :=
  keywordWrite hdb (mkCFITSKeyword name (KV_Int16 (Int.cast_signed 16 v)) c).

(** Modelled from the spec: [keywordWrite] of a [std::int32_t]. *)
Definition keywordWrite_int32 (hdb : nat) (name : string) (v : Z)
  (c : string) : M unit :=
  keywordWrite hdb (mkCFITSKeyword name (KV_Int32 (Int.cast_signed 32 v)) c).

(** Modelled from the spec: [keywordWrite] of a [std::int64_t]. *)
Definition keywordWrite_int64 (hdb : nat) (name : string) (v : Z)
  (c : string) : M unit :=
  keywordWrite hdb (mkCFITSKeyword name (KV_Int64 (Int.cast_signed 64 v)) c).

(** Modelled from the spec: [keywordWrite] of a [std::uint8_t]. *)
Definition keywordWrite_uint8 (hdb : nat) (name : string) (v : Z)
  (c : string) : M unit :=
  keywordWrite hdb (mkCFITSKeyword name (KV_UInt8 (Int.cast_unsigned 8 v)) c).

(** Modelled from the spec: [keywordWrite] of a [std::uint32_t]. *)
Definition keywordWrite_uint32 (hdb : nat) (name : string) (v : Z)
  (c : string) : M unit :=
  keywordWrite hdb
    (mkCFITSKeyword name (KV_UInt32 (Int.cast_unsigned 32 v)) c).

(** Modelled from the spec: [keywordWrite] of a [float]. *)
Definition keywordWrite_float (hdb : nat) (name : string) (v : spec_float)
  (c : string) : M unit :=
  keywordWrite hdb (mkCFITSKeyword name (KV_Float v) c).

(** Modelled from the spec: [keywordWrite] of a [double]. *)
Definition keywordWrite_double (hdb : nat) (name : string) (v : spec_float)
  (c : string) : M unit :=
  keywordWrite hdb (mkCFITSKeyword name (KV_Double v) c).

(** Modelled from the spec: [keywordWrite] of a [std::string]. *)
Definition keywordWrite_string (hdb : nat) (name : string) (v : string)
  (c : string) : M unit :=
  keywordWrite hdb (mkCFITSKeyword name (KV_String v) c).

(** Modelled from the spec: [imageCrop(hdb, origen, dims)], the overload
    that takes two points. *)
Definition imageCrop_points (hdb : nat) (origen dims : Z * Z) : M unit :=
  imageCrop hdb (fst origen) (snd origen) (fst dims) (snd dims).

(** Modelled from the spec: [resample(newWidth, newHeight)], which with a
    "target size outside the current extents fails with OutOfRange". *)
Definition resample (pixelsOf : Z -> Z -> CAstroImage -> CAstroImage)
  (newWidth newHeight : Z) (img : CAstroImage) : result CAstroImage :=
  if (0 <=? newWidth) && (0 <=? newHeight) &&
     (newWidth <=? width img) && (newHeight <=? height img)
  then Ok (pixelsOf newWidth newHeight img)
  else Throw OutOfRange.

(** Modelled from the spec: the position of an observation after a
    resampling, in the proportion of the new extents to the old. *)
Definition rescale (newWidth newHeight : Z) (b : CHDB) (o : Observation)
  : Observation :=
  mkObservation (objectName o)
    (CCDx o * IZR newWidth / IZR (ImageHDB.width b))%R
    (CCDy o * IZR newHeight / IZR (ImageHDB.height b))%R.

(** Modelled from the spec: [imageResample]. *)
Definition imageResample (pixelsOf : Z -> Z -> CAstroImage -> CAstroImage)
  (hdb : nat) (newWidth newHeight : Z) : M unit :=
  geometric hdb (ImageHDB.transform (resample pixelsOf newWidth newHeight))
    (rescale newWidth newHeight).

(** Modelled from the spec: [bin(factor)], which "with a non-positive or
    non-dividing factor fails with InvalidArgument". *)
Definition bin (pixelsOf : Z -> CAstroImage -> CAstroImage) (factor : Z)
  (img : CAstroImage) : result CAstroImage :=
  if (0 <? factor) && (width img mod factor =? 0) &&
     (height img mod factor =? 0)
  then Ok (pixelsOf factor img)
  else Throw InvalidArgument.

(** Modelled from the spec: the position of an observation after a
    binning. *)
Definition shrink (factor : Z) (o : Observation) : Observation :=
  mkObservation (objectName o)
    (CCDx o / IZR factor)%R (CCDy o / IZR factor)%R.

(** Modelled from the spec: [binPixels]; the factor is an [unsigned int]. *)
Definition binPixels (pixelsOf : Z -> CAstroImage -> CAstroImage)
  (hdb : nat) (factor : Z) : M unit :=
  geometric hdb (ImageHDB.transform (bin pixelsOf factor))
    (fun _ => shrink factor).

(** Modelled from the spec: [imageFloat], a geometric operation of both
    headers that the spec does not describe: whatever its checks and its
    pixels are, the facade applies it as it applies the others. *)
Definition imageFloat (env : Collaborators) (hdb : nat)
  (newWidth newHeight newBkgnd : Z) : M unit :=
  geometric hdb
    (ImageHDB.transform (floating env newWidth newHeight newBkgnd))
    (floatingMove env newWidth newHeight).

(** Modelled from the spec: [TRS], the facade's [affineTransform(center,
    offset, angle, scale, pixelSize, validityMask)]; the validity mask it
    hands back is part of the numerical work and is left out. *)
Definition TRS (env : Collaborators) (hdb : nat) (center offset : R * R)
  (angle scale : R) (pixelSize : R * R) : M unit :=
  geometric hdb
    (ImageHDB.transform
       (transformation env center offset angle scale pixelSize))
    (transformationMove env center offset angle scale).

(** The invariant of the back-references: each designates a block of its
    kind. *)
Definition referenceValid (kind : EBlockType) (this : CAstroFile) : bool :=
  match backReference kind this with
  | None => true
  | Some i =>
      match nth_error (HDB this) i with
      | Some b => isKind kind b
      | None => false
      end
  end.

Definition referencesValid (this : CAstroFile) : bool :=
  referenceValid BT_ASTROMETRY this && referenceValid BT_PHOTOMETRY this.

(** The image block [hdb] of an aggregate and its parts. *)
Definition imageAt (hdb : nat) (this : CAstroFile) : option CAstroImage :=
  match nth_error (HDB this) hdb with
  | Some (CImageHDB _ d _ _) => Some d
  | _ => None
  end.





(** *** The facade as a set of calls *)

(** What a call returns. *)
Inductive Value : Type :=
| VVoid
| VBool (b : bool)
| VSize (n : nat)
| VType (t : KWType)
| VKeyword (k : CFITSKeyword)
| VTelescope (t : option CTelescope)
| VValue (v : KeywordValue)
| VStrings (found : option (KeywordValue * string))
| VStore (store : DKeywordStore).

(** The calls of the members the class defines, of HDB management, of the
    whole keyword facade and image-transform facade (AstroFile.h, lines 264
    to 282 and 319 to 327) and of the observation lists.  The other members
    of the class (files, rendering, statistics, analysis, calibration, the
    observation context) are named by the spec and not described: they are
    no calls here. *)
Inductive Call : Type :=
| Call_isDirty
| Call_hasData
| Call_isDirty_set (b : bool)
| Call_hasData_set (b : bool)
| Call_imageName (name : string)
| Call_HDBCount
| Call_getObservationTelescope
| Call_HDBAdd (b : CHDB)
| Call_createPrimaryImageHDB
| Call_loadFromFITS (HDBRegister : DHDBRegister) (files : list fitsfile)
| Call_keywordData (hdb : nat) (name : string)
| Call_keywordExists (hdb : nat) (name : string)
| Call_keywordCount (hdb : nat)
| Call_keywordType (hdb : nat) (name : string)
| Call_keywordWrite (hdb : nat) (k : CFITSKeyword)
| Call_keywordDelete (hdb : nat) (name : string)
| Call_flipImage (hdb : nat)
| Call_flopImage (hdb : nat)
| Call_rotateImage (hdb : nat) (angle : R)
| Call_imageCrop (hdb : nat) (xo yo xd yd : Z)
| Call_createAstrometryHDB
| Call_createPhotometryHDB
| Call_astrometryObjectAdd (o : Observation)
| Call_astrometryObjectRemove (name : string)
| Call_astrometryObjectCount
| Call_photometryObjectAdd (o : Observation)
| Call_photometryObjectRemove (name : string)
| Call_photometryObjectCount
| Call_keywordView (hdb : nat) (name : string) (t : KeywordView.Target)
| Call_keywordData_strings (hdb : nat) (name : string)
| Call_keywords (hdb : nat)
| Call_keywordWrite_int8 (hdb : nat) (name : string) (v : Z) (c : string)
| Call_keywordWrite_int16 (hdb : nat) (name : string) (v : Z) (c : string)
| Call_keywordWrite_int32 (hdb : nat) (name : string) (v : Z) (c : string)
| Call_keywordWrite_int64 (hdb : nat) (name : string) (v : Z) (c : string)
| Call_keywordWrite_uint8 (hdb : nat) (name : string) (v : Z) (c : string)
| Call_keywordWrite_uint16 (hdb : nat) (name : string) (v : Z) (c : string)
| Call_keywordWrite_uint32 (hdb : nat) (name : string) (v : Z) (c : string)
| Call_keywordWrite_float (hdb : nat) (name : string) (v : spec_float)
    (c : string)
| Call_keywordWrite_double (hdb : nat) (name : string) (v : spec_float)
    (c : string)
| Call_keywordWrite_string (hdb : nat) (name : string) (v : string)
    (c : string)
| Call_imageFloat (hdb : nat) (newWidth newHeight newBkgnd : Z)
| Call_imageResample (hdb : nat) (newWidth newHeight : Z)
| Call_binPixels (hdb : nat) (factor : Z)
| Call_TRS (hdb : nat) (center offset : R * R) (angle scale : R)
    (pixelSize : R * R)
| Call_imageCrop_points (hdb : nat) (origen dims : Z * Z).

Definition returning {A : Type} (v : A -> Value) (c : M A) : M Value :=
  a <- c ;; ret (v a).

Definition void (c : M unit) : M Value := returning (fun _ => VVoid) c.

Definition run (env : Collaborators) (c : Call) : M Value :=
  match c with
  | Call_isDirty => returning VBool isDirty
  | Call_hasData => returning VBool hasData
  | Call_isDirty_set b => void (isDirty_set b)
  | Call_hasData_set b => void (hasData_set b)
  | Call_imageName name => void (imageName name)
  | Call_HDBCount => returning VSize HDBCount
  | Call_getObservationTelescope => returning VTelescope getObservationTelescope
  | Call_HDBAdd b => void (HDBAdd b)
  | Call_createPrimaryImageHDB => returning VBool createPrimaryImageHDB
  | Call_loadFromFITS reg files => void (loadFromFITS reg files)
  | Call_keywordData hdb name => returning VKeyword (keywordData hdb name)
  | Call_keywordExists hdb name => returning VBool (keywordExists hdb name)
  | Call_keywordCount hdb => returning VSize (keywordCount hdb)
  | Call_keywordType hdb name => returning VType (keywordType hdb name)
  | Call_keywordWrite hdb k => void (keywordWrite hdb k)
  | Call_keywordDelete hdb name => returning VBool (keywordDelete hdb name)
  | Call_flipImage hdb => void (flipImage hdb)
  | Call_flopImage hdb => void (flopImage hdb)
  | Call_rotateImage hdb angle => void (rotateImage (rotation env) hdb angle)
  | Call_imageCrop hdb xo yo xd yd => void (imageCrop hdb xo yo xd yd)
  | Call_createAstrometryHDB => returning VSize createAstrometryHDB
  | Call_createPhotometryHDB => returning VSize createPhotometryHDB
  | Call_astrometryObjectAdd o => returning VBool (astrometryObjectAdd o)
  | Call_astrometryObjectRemove name =>
      returning VBool (astrometryObjectRemove name)
  | Call_astrometryObjectCount => returning VSize astrometryObjectCount
  | Call_photometryObjectAdd o => returning VBool (photometryObjectAdd o)
  | Call_photometryObjectRemove name =>
      returning VBool (photometryObjectRemove name)
  | Call_photometryObjectCount => returning VSize photometryObjectCount
  | Call_keywordView hdb name t =>
      returning VValue (keywordView (conversion env) hdb name t)
  | Call_keywordData_strings hdb name =>
      returning VStrings (keywordData_strings (conversion env) hdb name)
  | Call_keywords hdb => returning VStore (keywords hdb)
  | Call_keywordWrite_int8 hdb name v c => void (keywordWrite_int8 hdb name v c)
  | Call_keywordWrite_int16 hdb name v c =>
      void (keywordWrite_int16 hdb name v c)
  | Call_keywordWrite_int32 hdb name v c =>
      void (keywordWrite_int32 hdb name v c)
  | Call_keywordWrite_int64 hdb name v c =>
      void (keywordWrite_int64 hdb name v c)
  | Call_keywordWrite_uint8 hdb name v c =>
      void (keywordWrite_uint8 hdb name v c)
  | Call_keywordWrite_uint16 hdb name v c =>
      void (keywordWrite_uint16 hdb name v c)
  | Call_keywordWrite_uint32 hdb name v c =>
      void (keywordWrite_uint32 hdb name v c)
  | Call_keywordWrite_float hdb name v c =>
      void (keywordWrite_float hdb name v c)
  | Call_keywordWrite_double hdb name v c =>
      void (keywordWrite_double hdb name v c)
  | Call_keywordWrite_string hdb name v c =>
      void (keywordWrite_string hdb name v c)
  | Call_imageFloat hdb w h bkgnd => void (imageFloat env hdb w h bkgnd)
  | Call_imageResample hdb w h =>
      void (imageResample (resampling env) hdb w h)
  | Call_binPixels hdb factor => void (binPixels (binning env) hdb factor)
  | Call_TRS hdb center offset angle scale pixelSize =>
      void (TRS env hdb center offset angle scale pixelSize)
  | Call_imageCrop_points hdb origen dims =>
      void (imageCrop_points hdb origen dims)
  end.




End Facade.

(** ** A file with an image and an astrometry block *)

Module Example.


Definition star1 : Observation := mkObservation "star1" 10 10.

Definition solution : WorldCoor := mkWorldCoor 1 false.

(** A colour image of 4 by 3 pixels in three planes, with its solution. *)
Definition poly : CHDB :=
  CImageHDB [] (Image.colour 4 3) None (Some solution).

(** The file of that image, with an astrometry block. *)
Definition polyFile : CAstroFile :=
  mkCAstroFile (Some 1%nat) None "m42" None None None None None
    [poly; CAstrometryHDB [] [mkObservation "star1" 1 1]] false true.

Definition primary : CHDB :=
  CImageHDB [] (Image.ramp 100 100) None (Some solution).

(** Block 0 is a 100 by 100 image with a coordinate solution, block 1 the
    astrometry block with one observation at pixel (10, 10). *)
Definition file : CAstroFile :=
  mkCAstroFile (Some 1%nat) None "m31" None None None None None
    [primary; CAstrometryHDB [] [star1]] false true.

(** The same file before any observation was made. *)
Definition unobserved : CAstroFile :=
  mkCAstroFile (Some 1%nat) None "m31" None None None None None
    [primary; CAstrometryHDB [] []] false true.



(** A new, empty aggregate. *)
Definition empty : CAstroFile :=
  mkCAstroFile None None "" None None None None None [] false false.

Definition image_entry : SHDBRegister :=
  mkSHDBRegister "CImageHDB" (Registry.accepts "IMAGE")
    (fun _ f => CImageHDB (header f) (mkCAstroImage 0 0 []) None None).

Definition table_entry : SHDBRegister :=
  mkSHDBRegister "CHDBBinTable" (Registry.accepts "BINTABLE")
    (fun _ f => CHDBBinTable (header f)).

End Example.

(** ** Reading a decimal numeral

    The inverse the string view is measured against: a non-empty string of
    decimal digits, read most significant digit first. *)

Definition digit_value (c : ascii) : option Z :=
  let n := Z.of_N (N_of_ascii c) in
  if (48 <=? n) && (n <=? 57) then Some (n - 48) else None.

Fixpoint parse_digits (s : string) (acc : Z) : option Z :=
  match s with
  | EmptyString => Some acc
  | String c s' =>
      match digit_value c with
      | Some d => parse_digits s' (acc * 10 + d)
      | None => None
      end
  end.

Definition parse_decimal (s : string) : option Z :=
  match s with
  | EmptyString => None
  | String _ _ => parse_digits s 0
  end.

(** ** Sequences of calls to the member functions defined in the class
    (include/AstroFile.h) *)

Module Inline.

(** The member functions of [CAstroFile] whose bodies are in the header. *)
Inductive Call : Type :=
| isDirty
| hasData
| isDirty_set (b : bool)
| hasData_set (b : bool)
| imageName (name : string)
| HDBCount
| getObservationTelescope.

Definition run (c : Call) : Facade.M Facade.Value :=
  match c with
  | isDirty => Facade.returning Facade.VBool Facade.isDirty
  | hasData => Facade.returning Facade.VBool Facade.hasData
  | isDirty_set b =>
      Facade.returning (fun _ => Facade.VVoid) (Facade.isDirty_set b)
  | hasData_set b =>
      Facade.returning (fun _ => Facade.VVoid) (Facade.hasData_set b)
  | imageName name =>
      Facade.returning (fun _ => Facade.VVoid) (Facade.imageName name)
  | HDBCount => Facade.returning Facade.VSize Facade.HDBCount
  | getObservationTelescope =>
      Facade.returning Facade.VTelescope Facade.getObservationTelescope
  end.

(** The calls of a list, one after the other, with what each returned. *)
Fixpoint runAll (cs : list Call) : Facade.M (list Facade.Value) :=
  match cs with
  | [] => Facade.ret []
  | c :: rest =>
      Facade.bind (run c) (fun v =>
      Facade.bind (runAll rest) (fun vs => Facade.ret (v :: vs)))
  end.

(** The argument of the last [isDirty(b)] of a list, [d] if there is
    none; the same for [hasData(b)] and [imageName(name)]. *)
Fixpoint lastDirty (cs : list Call) (d : bool) : bool :=
  match cs with
  | [] => d
  | isDirty_set b :: rest => lastDirty rest b
  | _ :: rest => lastDirty rest d
  end.

Fixpoint lastHasData (cs : list Call) (d : bool) : bool :=
  match cs with
  | [] => d
  | hasData_set b :: rest => lastHasData rest b
  | _ :: rest => lastHasData rest d
  end.

Fixpoint lastName (cs : list Call) (n : string) : string :=
  match cs with
  | [] => n
  | imageName name :: rest => lastName rest name
  | _ :: rest => lastName rest n
  end.

End Inline.

(** * Properties *)

(** ** Integers, floats and bounded checks *)

Lemma cast_unsigned_id w z :
  0 < w -> Int.in_unsigned w z -> Int.cast_unsigned w z = z.
Proof.
  unfold Int.in_unsigned, Int.umax, Int.cast_unsigned. intros Hw Hz.
  apply Z.mod_small. lia.
Qed.

Lemma cast_signed_id w z :
  0 < w -> Int.in_signed w z -> Int.cast_signed w z = z.
Proof.
  unfold Int.in_signed, Int.smin, Int.smax, Int.cast_signed. intros Hw Hz.
  assert (E : 2 ^ w = 2 * 2 ^ (w - 1)).
  { replace w with (Z.succ (w - 1)) at 1 by lia.
    rewrite Z.pow_succ_r by lia. reflexivity. }
  rewrite Z.mod_small; lia.
Qed.

Lemma unsigned16_in_signed w z :
  17 <= w -> Int.in_unsigned 16 z -> Int.in_signed w z.
Proof.
  unfold Int.in_unsigned, Int.in_signed, Int.umax, Int.smin, Int.smax.
  intros Hw Hz.
  assert (2 ^ 16 <= 2 ^ (w - 1)) by (apply Z.pow_le_mono_r; lia).
  lia.
Qed.

Lemma unsigned16_in_unsigned w z :
  16 <= w -> Int.in_unsigned 16 z -> Int.in_unsigned w z.
Proof.
  unfold Int.in_unsigned, Int.umax. intros Hw Hz.
  assert (2 ^ 16 <= 2 ^ w) by (apply Z.pow_le_mono_r; lia).
  lia.
Qed.

Lemma all_from_spec P fuel : forall z k,
  all_from fuel z P = true -> z <= k < z + Z.of_nat fuel -> P k = true.
Proof.
  induction fuel as [|fuel IH]; intros z k Hall Hk.
  - simpl in Hk. lia.
  - cbn [all_from] in Hall. destruct (P z) eqn:Pz; [|discriminate].
    destruct (Z.eq_dec k z) as [->|Hne]; [exact Pz|].
    apply (IH (z + 1)); [exact Hall | lia].
Qed.

Lemma denotesb_denotes f z : FP.denotesb f z = true -> FP.denotes f z.
Proof.
  unfold FP.denotes. destruct f as [s|s| |s m e]; cbn [FP.denotesb FP.value];
    try discriminate.
  - intros H. apply Z.eqb_eq in H. subst z. exists 0%Q. split; reflexivity.
  - intros H. eexists. split; [reflexivity|].
    destruct (Z.leb_spec 0 e) as [He|He]; apply Z.eqb_eq in H.
    + rewrite <- H. rewrite inject_Z_mult.
      rewrite (Zpower_Qpower 2 e He). reflexivity.
    + rewrite H. rewrite inject_Z_mult.
      replace e with (- - e) at 2 by lia.
      rewrite Qpower_opp. rewrite <- (Zpower_Qpower 2 (- e)) by lia.
      assert (Hnz : ~ (inject_Z (2 ^ (- e)) == 0)%Q).
      { intros E. unfold Qeq in E. cbn in E.
        assert (0 < 2 ^ (- e)) by (apply Z.pow_pos_nonneg; lia). lia. }
      field. exact Hnz.
Qed.

(** Every 16-bit value has exact float and double views and the decimal
    rendering as its string view: all 65536 values are run. *)
Lemma wider_views_checked :
  all_from (Z.to_nat 65536) 0 UInt16.wider_views_agree = true.
Proof. vm_compute. reflexivity. Qed.

Lemma wider_views_agree_all v :
  Int.in_unsigned 16 v -> UInt16.wider_views_agree v = true.
Proof.
  intros [H0 H1]. apply (all_from_spec _ _ 0 v wider_views_checked).
  unfold Int.umax in H1. rewrite Z2Nat.id by lia. cbn in H1. lia.
Qed.

(** ** Keyword views *)

(** C1: a signed 16-bit view of an unsigned 16-bit keyword throws
    [RangeError] exactly when the stored value is outside [-32768, 32767],
    and returns the value otherwise; a keyword written with 40000 throws. *)
Theorem C1_int16_view_range_error :
  (forall k : CFITSKeywordUInt16,
     (UInt16.operator_int16_t k = Throw RangeError
      <-> ~ (-32768 <= value_ k <= 32767)) /\
     (-32768 <= value_ k <= 32767 ->
      UInt16.operator_int16_t k = Ok (value_ k))) /\
  (forall name comment,
     value_ (UInt16.create name 40000 comment) = 40000 /\
     UInt16.operator_int16_t (UInt16.create name 40000 comment)
     = Throw RangeError).
Proof.
  split.
  - intros k. unfold UInt16.operator_int16_t.
    change (Int.smax 16) with 32767. change (Int.smin 16) with (-32768).
    destruct (Z.leb_spec (value_ k) 32767) as [Hle|Hgt];
      destruct (Z.geb_spec (value_ k) (-32768)) as [Hge|Hlt]; cbn [andb].
    + assert (Hs : Int.in_signed 16 (value_ k)).
      { unfold Int.in_signed. change (Int.smax 16) with 32767.
        change (Int.smin 16) with (-32768). lia. }
      rewrite (cast_signed_id 16 (value_ k) eq_refl Hs).
      split; [split; [discriminate | intros H; exfalso; apply H; lia]
             | reflexivity].
    + split; [split; [intros _; lia | reflexivity] | intros; lia].
    + split; [split; [intros _; lia | reflexivity] | intros; lia].
    + split; [split; [intros _; lia | reflexivity] | intros; lia].
  - intros name comment. split; reflexivity.
Qed.

Lemma C1_int16_view_range_error_witness :
  UInt16.operator_int16_t (UInt16.create "GAIN" 1234 "") = Ok 1234 /\
  UInt16.operator_int16_t (UInt16.create "EXPTIME" 40000 "")
  = Throw RangeError.
Proof.
  split.
  - apply (proj2 (proj1 C1_int16_view_range_error
                    (UInt16.create "GAIN" 1234 ""))).
    cbn. lia.
  - apply (proj1 (proj1 C1_int16_view_range_error
                    (UInt16.create "EXPTIME" 40000 ""))).
    cbn. lia.
Defined.

(** C2: the signed 32-bit, signed 64-bit, unsigned 32-bit, float, double and
    string views of an unsigned 16-bit keyword never throw and return the
    stored value (its decimal rendering for the string view); a keyword
    written with 40000 reads as 40000 through the signed 64-bit view. *)
Theorem C2_wider_views_exact (k : CFITSKeywordUInt16) (H : UInt16.wf k) :
  UInt16.operator_int32_t k = Ok (value_ k) /\
  UInt16.operator_int64_t k = Ok (value_ k) /\
  UInt16.operator_uint32_t k = Ok (value_ k) /\
  (exists f, UInt16.operator_float k = Ok f /\ FP.denotes f (value_ k)) /\
  (exists d, UInt16.operator_double k = Ok d /\ FP.denotes d (value_ k)) /\
  UInt16.operator_string k = Ok (decimal_rendering (value_ k)) /\
  (forall name comment,
     UInt16.operator_int64_t (UInt16.create name 40000 comment) = Ok 40000).
Proof.
  unfold UInt16.wf in H.
  pose proof (wider_views_agree_all (value_ k) H) as Hc.
  unfold UInt16.wider_views_agree, UInt16.operator_float,
    UInt16.operator_double, UInt16.operator_string in Hc.
  cbn [value_] in Hc.
  apply andb_true_iff in Hc. destruct Hc as [Hc Hs].
  apply andb_true_iff in Hc. destruct Hc as [Hf Hd].
  apply String.eqb_eq in Hs.
  repeat split.
  - unfold UInt16.operator_int32_t. f_equal.
    apply cast_signed_id; [lia | apply unsigned16_in_signed; [lia | exact H]].
  - unfold UInt16.operator_int64_t. f_equal.
    apply cast_signed_id; [lia | apply unsigned16_in_signed; [lia | exact H]].
  - unfold UInt16.operator_uint32_t. f_equal.
    apply cast_unsigned_id;
      [lia | apply unsigned16_in_unsigned; [lia | exact H]].
  - eexists. split; [reflexivity | apply denotesb_denotes; exact Hf].
  - eexists. split; [reflexivity | apply denotesb_denotes; exact Hd].
  - unfold UInt16.operator_string. f_equal. exact Hs.
Qed.

Lemma C2_wider_views_exact_witness :
  UInt16.wf (UInt16.create "EXPTIME" 40000 "exposure") /\
  UInt16.operator_int32_t (UInt16.create "EXPTIME" 40000 "exposure")
  = Ok 40000 /\
  UInt16.operator_string (UInt16.create "EXPTIME" 40000 "exposure")
  = Ok "40000"%string.
Proof.
  assert (W : UInt16.wf (UInt16.create "EXPTIME" 40000 "exposure")).
  { unfold UInt16.wf, Int.in_unsigned. vm_compute.
    split; discriminate. }
  destruct (C2_wider_views_exact _ W) as (H32 & _ & _ & _ & _ & Hs & _).
  split; [exact W | split; [exact H32 | exact Hs]].
Defined.

(** ** The pixel buffer *)

Lemma tabulate_length w h f :
  List.length (Image.tabulate w h f) = Z.to_nat (w * h).
Proof. unfold Image.tabulate. rewrite length_map, length_seq. reflexivity. Qed.

Lemma index_in_buffer w h x y :
  0 <= x < w -> 0 <= y < h -> 0 <= x + y * w < w * h.
Proof. intros Hx Hy. nia. Qed.

Lemma index_column w x y : 0 <= x < w -> (x + y * w) mod w = x.
Proof. intros Hx. rewrite Z.mod_add by lia. apply Z.mod_small. exact Hx. Qed.

Lemma index_row w x y : 0 <= x < w -> (x + y * w) / w = y.
Proof.
  intros Hx. rewrite Z.div_add by lia. rewrite Z.div_small by exact Hx. lia.
Qed.

Lemma column_row_in_range w h i :
  0 <= w -> 0 <= h -> 0 <= i < w * h ->
  0 <= i mod w < w /\ 0 <= i / w < h.
Proof.
  intros Hw Hh Hi. assert (0 < w) by nia. split.
  - apply Z.mod_pos_bound. lia.
  - split; [apply Z.div_pos; lia | apply Z.div_lt_upper_bound; lia].
Qed.

Lemma nth_tabulate w h f i :
  0 <= i < w * h ->
  nth (Z.to_nat i) (Image.tabulate w h f) 0 = f (i mod w) (i / w).
Proof.
  intros Hi. unfold Image.tabulate.
  assert (Hlt : (Z.to_nat i < Z.to_nat (w * h))%nat) by lia.
  set (g := fun n : nat => f (Z.of_nat n mod w) (Z.of_nat n / w)).
  rewrite (nth_indep _ 0 (g O))
    by (rewrite length_map, length_seq; exact Hlt).
  rewrite map_nth. rewrite seq_nth by exact Hlt.
  unfold g. cbn [Nat.add]. rewrite Z2Nat.id by lia. reflexivity.
Qed.

Lemma pixel_at_tabulate w h f x y :
  0 <= x < w -> 0 <= y < h ->
  Image.pixel_at w (Image.tabulate w h f) x y = f x y.
Proof.
  intros Hx Hy. unfold Image.pixel_at.
  rewrite nth_tabulate by (apply index_in_buffer; assumption).
  rewrite index_column, index_row by exact Hx. reflexivity.
Qed.

Lemma tabulate_ext w h f g :
  0 <= w -> 0 <= h ->
  (forall x y, 0 <= x < w -> 0 <= y < h -> f x y = g x y) ->
  Image.tabulate w h f = Image.tabulate w h g.
Proof.
  intros Hw Hh Hfg. unfold Image.tabulate. apply map_ext_in.
  intros i Hi. apply in_seq in Hi.
  destruct (column_row_in_range w h (Z.of_nat i) Hw Hh) as [Hx Hy]; [lia|].
  apply Hfg; assumption.
Qed.

Lemma plane_tabulate w h p :
  0 <= w -> 0 <= h -> Image.plane_wf w h p ->
  p = Image.tabulate w h (Image.pixel_at w p).
Proof.
  intros Hw Hh Hlen. unfold Image.plane_wf in Hlen.
  apply (nth_ext _ _ 0 0).
  - rewrite tabulate_length. exact Hlen.
  - intros n Hn. rewrite Hlen in Hn.
    rewrite <- (Nat2Z.id n) at 2. rewrite nth_tabulate by lia.
    unfold Image.pixel_at. f_equal.
    assert (0 < w) by nia.
    rewrite <- (Nat2Z.id n) at 1. f_equal.
    rewrite (Z.div_mod (Z.of_nat n) w) at 1 by lia. lia.
Qed.

Lemma wf_of_functions w h fs :
  0 <= w -> 0 <= h -> Image.wf (Image.of_functions w h fs).
Proof.
  intros Hw Hh. unfold Image.wf, Image.of_functions.
  cbn [width height planes]. split; [exact Hw | split; [exact Hh|]].
  apply Forall_forall. intros p Hp. apply in_map_iff in Hp.
  destruct Hp as (f & <- & _). apply tabulate_length.
Qed.

Lemma flip_plane_twice w h p :
  0 <= w -> 0 <= h -> Image.plane_wf w h p ->
  Image.flip_plane w h (Image.flip_plane w h p) = p.
Proof.
  intros Hw Hh Hp. unfold Image.flip_plane.
  etransitivity; [|symmetry; exact (plane_tabulate w h p Hw Hh Hp)].
  apply tabulate_ext; try assumption.
  intros x y Hx Hy. rewrite pixel_at_tabulate by lia. f_equal. lia.
Qed.

Lemma flop_plane_twice w h p :
  0 <= w -> 0 <= h -> Image.plane_wf w h p ->
  Image.flop_plane w h (Image.flop_plane w h p) = p.
Proof.
  intros Hw Hh Hp. unfold Image.flop_plane.
  etransitivity; [|symmetry; exact (plane_tabulate w h p Hw Hh Hp)].
  apply tabulate_ext; try assumption.
  intros x y Hx Hy. rewrite pixel_at_tabulate by lia. f_equal. lia.
Qed.


(** A function that is the identity on every plane of an image is the
    identity on its planes. *)
Lemma map_planes_id w h (f : list Z -> list Z) (ps : list (list Z)) :
  Forall (Image.plane_wf w h) ps ->
  (forall p, Image.plane_wf w h p -> f p = p) ->
  map f ps = ps.
Proof.
  intros Hall Hf. induction Hall as [|p ps Hp _ IH]; cbn [map];
    [reflexivity|].
  rewrite (Hf p Hp), IH. reflexivity.
Qed.

Lemma flip_flip img : Image.wf img -> Image.flip (Image.flip img) = img.
Proof.
  intros (Hw & Hh & Hall). destruct img as [w h ps].
  cbn [width height planes] in *.
  unfold Image.flip. cbn [width height planes]. f_equal.
  rewrite map_map. apply (map_planes_id w h); [exact Hall|].
  intros p Hp. apply flip_plane_twice; assumption.
Qed.

Lemma flop_flop img : Image.wf img -> Image.flop (Image.flop img) = img.
Proof.
  intros (Hw & Hh & Hall). destruct img as [w h ps].
  cbn [width height planes] in *.
  unfold Image.flop. cbn [width height planes]. f_equal.
  rewrite map_map. apply (map_planes_id w h); [exact Hall|].
  intros p Hp. apply flop_plane_twice; assumption.
Qed.




(** ** Running the facade *)

Lemma nth_error_update_nth {A : Type} (f : A -> A) (l : list A) : forall i j,
  nth_error (Facade.update_nth i f l) j
  = if Nat.eqb i j then option_map f (nth_error l j) else nth_error l j.
Proof.
  induction l as [|x l IH]; intros [|i] [|j]; cbn; try reflexivity.
  - destruct (Nat.eqb i j); reflexivity.
  - apply IH.
Qed.

Lemma nth_error_onReference r f l j :
  nth_error (Facade.onReference r f l) j
  = if match r with Some i => Nat.eqb i j | None => false end
    then option_map f (nth_error l j) else nth_error l j.
Proof.
  destruct r as [i|]; cbn [Facade.onReference];
    [apply nth_error_update_nth | reflexivity].
Qed.

Lemma isKind_map_observations kind f b :
  Facade.isKind kind (HDB.map_observations f b) = Facade.isKind kind b.
Proof. destruct kind, b; reflexivity. Qed.

Lemma isKind_not_image kind kw d p w :
  Facade.isKind kind (CImageHDB kw d p w) = false.
Proof. destruct kind; reflexivity. Qed.

Lemma checkReference_valid kind this :
  Facade.referenceValid kind this = true ->
  Facade.checkReference kind this = (Ok tt, this).
Proof.
  unfold Facade.referenceValid, Facade.checkReference, Facade.bind, Facade.get.
  destruct (Facade.backReference kind this) as [i|]; [|reflexivity].
  destruct (nth_error (HDB this) i) as [b|]; [|discriminate].
  intros ->. reflexivity.
Qed.


Lemma geometric_ok hdb op move this b b' :
  nth_error (HDB this) hdb = Some b ->
  op b = Ok b' ->
  (hdb = O -> Facade.referencesValid this = true) ->
  Facade.geometric hdb op move this
  = (Ok tt, Facade.geometric_state hdb b b' move this).
Proof.
  intros Hb Hop Hrefs.
  unfold Facade.geometric.
  cbv [Facade.bind Facade.getHDB Facade.get].
  rewrite Hb. cbv [Facade.ret Facade.lift]. rewrite Hop.
  unfold Facade.geometric_state.
  destruct hdb as [|n]; cbn [Nat.eqb].
  - specialize (Hrefs eq_refl). unfold Facade.referencesValid in Hrefs.
    apply andb_true_iff in Hrefs. destruct Hrefs as [Ha Hp].
    rewrite (checkReference_valid _ _ Ha), (checkReference_valid _ _ Hp).
    reflexivity.
  - reflexivity.
Qed.


Lemma backReference_geometric_state kind hdb b b' move this :
  Facade.backReference kind (Facade.geometric_state hdb b b' move this)
  = Facade.backReference kind this.
Proof.
  unfold Facade.geometric_state. destruct (Nat.eqb hdb 0), kind; reflexivity.
Qed.

(** The blocks after a geometric operation, position by position. *)
Lemma nth_error_geometric_state hdb b b' move this j :
  nth_error (HDB (Facade.geometric_state hdb b b' move this)) j
  = let after_replace :=
      if Nat.eqb hdb j then option_map (fun _ => b') (nth_error (HDB this) j)
      else nth_error (HDB this) j in
    let on r (x : option CHDB) :=
      if match r with Some i => Nat.eqb i j | None => false end
      then option_map (HDB.map_observations (move b)) x else x in
    if Nat.eqb hdb 0
    then on (photometryHDB_ this) (on (astrometryHDB_ this) after_replace)
    else after_replace.
Proof.
  unfold Facade.geometric_state. cbv zeta.
  destruct (Nat.eqb hdb 0); cbn [HDB Facade.set_bDirty Facade.set_HDB
    photometryHDB_ astrometryHDB_].
  - rewrite !nth_error_onReference, nth_error_update_nth. reflexivity.
  - apply nth_error_update_nth.
Qed.

Lemma geometric_state_block hdb b kw d p w move this :
  nth_error (HDB this) hdb = Some b ->
  nth_error (HDB (Facade.geometric_state hdb b (CImageHDB kw d p w) move this))
    hdb = Some (CImageHDB kw d p w).
Proof.
  intros Hb. rewrite nth_error_geometric_state. cbv zeta.
  rewrite Nat.eqb_refl, Hb. cbn [option_map].
  destruct (Nat.eqb hdb 0); [|reflexivity].
  destruct (photometryHDB_ this) as [i|], (astrometryHDB_ this) as [i'|];
    repeat match goal with
           | |- context [Nat.eqb ?a ?b] => destruct (Nat.eqb a b)
           end; reflexivity.
Qed.

Lemma referenceValid_geometric_state kind hdb b b' move this :
  nth_error (HDB this) hdb = Some b ->
  (forall k, Facade.isKind k b = false) ->
  Facade.referenceValid kind this = true ->
  Facade.referenceValid kind (Facade.geometric_state hdb b b' move this)
  = true.
Proof.
  intros Hb Himg. unfold Facade.referenceValid.
  rewrite backReference_geometric_state.
  destruct (Facade.backReference kind this) as [i|]; [|reflexivity].
  rewrite nth_error_geometric_state. cbv zeta.
  destruct (nth_error (HDB this) i) as [bi|] eqn:Hi; [|discriminate].
  intros Hk.
  assert (Hne : Nat.eqb hdb i = false).
  { apply Nat.eqb_neq. intros ->. rewrite Hb in Hi. injection Hi as ->.
    rewrite Himg in Hk. discriminate. }
  rewrite Hne.
  destruct (Nat.eqb hdb 0); [|exact Hk].
  destruct (photometryHDB_ this) as [p|], (astrometryHDB_ this) as [a|];
    repeat match goal with
           | |- context [Nat.eqb ?a ?b] => destruct (Nat.eqb a b)
           end; cbn [option_map];
    rewrite ?isKind_map_observations; exact Hk.
Qed.

Lemma referencesValid_geometric_state hdb b b' move this :
  nth_error (HDB this) hdb = Some b ->
  (forall k, Facade.isKind k b = false) ->
  Facade.referencesValid this = true ->
  Facade.referencesValid (Facade.geometric_state hdb b b' move this) = true.
Proof.
  intros Hb Himg Hv. unfold Facade.referencesValid in *.
  apply andb_true_iff in Hv. destruct Hv as [Ha Hp].
  rewrite !referenceValid_geometric_state by assumption. reflexivity.
Qed.


(** ** Rotation *)





(** ** Flip and flop *)

Lemma imageAt_block hdb this img :
  Facade.imageAt hdb this = Some img ->
  exists kw ps wcs, nth_error (HDB this) hdb = Some (CImageHDB kw img ps wcs).
Proof.
  unfold Facade.imageAt.
  destruct (nth_error (HDB this) hdb) as [[kw d ps wcs| | | |]|];
    try discriminate.
  intros [= ->]. eauto.
Qed.

Lemma transform_twice hdb (f : CAstroImage -> CAstroImage) move this img :
  Facade.imageAt hdb this = Some img ->
  Facade.referencesValid this = true ->
  exists this1 this2,
    Facade.geometric hdb (ImageHDB.transform (fun d => Ok (f d))) move this
    = (Ok tt, this1) /\
    Facade.geometric hdb (ImageHDB.transform (fun d => Ok (f d))) move this1
    = (Ok tt, this2) /\
    Facade.imageAt hdb this2 = Some (f (f img)).
Proof.
  intros Himg Hv.
  destruct (imageAt_block hdb this img Himg) as (kw & ps & wcs & Hb).
  set (b := CImageHDB kw img ps wcs) in *.
  set (b1 := CImageHDB kw (f img) ps (HDB.mark_stale wcs)).
  set (b2 := CImageHDB kw (f (f img)) ps (HDB.mark_stale (HDB.mark_stale wcs))).
  set (this1 := Facade.geometric_state hdb b b1 move this).
  assert (Hb1 : nth_error (HDB this1) hdb = Some b1)
    by (apply geometric_state_block; exact Hb).
  assert (Hv1 : Facade.referencesValid this1 = true).
  { apply referencesValid_geometric_state; [exact Hb | | exact Hv].
    intros k. apply isKind_not_image. }
  exists this1, (Facade.geometric_state hdb b1 b2 move this1).
  split; [|split].
  - apply geometric_ok; [exact Hb | reflexivity | intros _; exact Hv].
  - apply geometric_ok; [exact Hb1 | reflexivity | intros _; exact Hv1].
  - unfold Facade.imageAt, b2.
    rewrite (geometric_state_block hdb b1 _ _ _ _ move this1 Hb1).
    reflexivity.
Qed.

(** C4: on every image, of one plane or of several, [flip] twice and [flop]
    twice give back the pixel buffer, plane by plane, in the image class and
    through the facade. *)
Theorem C4_flip_flop_twice :
  (forall img, Image.wf img ->
     Image.flip (Image.flip img) = img /\
     Image.flop (Image.flop img) = img) /\
  (forall this hdb img,
     Image.wf img ->
     Facade.imageAt hdb this = Some img ->
     Facade.referencesValid this = true ->
     (exists this1 this2,
        Facade.flipImage hdb this = (Ok tt, this1) /\
        Facade.flipImage hdb this1 = (Ok tt, this2) /\
        Facade.imageAt hdb this2 = Some img) /\
     (exists this1 this2,
        Facade.flopImage hdb this = (Ok tt, this1) /\
        Facade.flopImage hdb this1 = (Ok tt, this2) /\
        Facade.imageAt hdb this2 = Some img)).
Proof.
  split.
  - intros img Hwf. split; [apply flip_flip | apply flop_flop]; exact Hwf.
  - intros this hdb img Hwf Himg Hv. split.
    + destruct (transform_twice hdb Image.flip
                  (fun b => Observations.mirror_rows (IZR (ImageHDB.height b)))
                  this img Himg Hv) as (this1 & this2 & H1 & H2 & H3).
      rewrite (flip_flip img Hwf) in H3. exists this1, this2. auto.
    + destruct (transform_twice hdb Image.flop
                  (fun b => Observations.mirror_columns (IZR (ImageHDB.width b)))
                  this img Himg Hv) as (this1 & this2 & H1 & H2 & H3).
      rewrite (flop_flop img Hwf) in H3. exists this1, this2. auto.
Qed.

Lemma C4_flip_flop_twice_witness :
  (Image.flip (Image.flip (Image.colour 4 3)) = Image.colour 4 3 /\
   Image.flop (Image.flop (Image.colour 4 3)) = Image.colour 4 3) /\
  Image.isPolyImage (Image.colour 4 3) = true /\
  (exists this1 this2,
     Facade.flipImage 0 Example.polyFile = (Ok tt, this1) /\
     Facade.flipImage 0 this1 = (Ok tt, this2) /\
     Facade.imageAt 0 this2 = Some (Image.colour 4 3)) /\
  (exists this1 this2,
     Facade.flopImage 0 Example.file = (Ok tt, this1) /\
     Facade.flopImage 0 this1 = (Ok tt, this2) /\
     Facade.imageAt 0 this2 = Some (Image.ramp 100 100)).
Proof.
  assert (Hpoly : Image.wf (Image.colour 4 3))
    by (apply wf_of_functions; lia).
  assert (Hmono : Image.wf (Image.ramp 100 100))
    by (apply wf_of_functions; lia).
  split; [apply (proj1 C4_flip_flop_twice (Image.colour 4 3)); exact Hpoly|].
  split; [reflexivity|].
  split.
  - exact (proj1 (proj2 C4_flip_flop_twice Example.polyFile 0%nat
                    (Image.colour 4 3) Hpoly eq_refl eq_refl)).
  - exact (proj2 (proj2 C4_flip_flop_twice Example.file 0%nat
                    (Image.ramp 100 100) Hmono eq_refl eq_refl)).
Defined.

(** ** Observation lists *)

Lemma add_existing o l :
  Observations.has (objectName o) l = true ->
  Observations.addObservation o l = (false, l).
Proof. unfold Observations.addObservation. intros ->. reflexivity. Qed.

Lemma isKind_with_observations kind b l :
  Facade.isKind kind b = true ->
  Facade.isKind kind (HDB.with_observations l b) = true /\
  HDB.observations (HDB.with_observations l b) = Some l.
Proof. destruct kind, b; try discriminate; cbn; auto. Qed.

Lemma observationList_ok kind this i b l :
  Facade.backReference kind this = Some i ->
  nth_error (HDB this) i = Some b ->
  Facade.isKind kind b = true ->
  HDB.observations b = Some l ->
  Facade.observationList kind this = (Ok (i, l), this).
Proof.
  intros Hr Hb Hk Hl. unfold Facade.observationList.
  cbv [Facade.bind Facade.get]. rewrite Hr.
  rewrite checkReference_valid
    by (unfold Facade.referenceValid; rewrite Hr, Hb; exact Hk).
  rewrite Hb, Hl. reflexivity.
Qed.

(** The state after an observation has been added to block [i]. *)
Lemma objectAdd_run kind this i b l o :
  Facade.backReference kind this = Some i ->
  nth_error (HDB this) i = Some b ->
  Facade.isKind kind b = true ->
  HDB.observations b = Some l ->
  Facade.objectAdd kind o this
  = if Observations.has (objectName o) l
    then (Ok false, this)
    else (Ok true,
          Facade.set_bDirty true
            (Facade.set_HDB
               (Facade.update_nth i (HDB.with_observations (l ++ [o]))
                  (HDB this)) this)).
Proof.
  intros Hr Hb Hk Hl. unfold Facade.objectAdd.
  unfold Facade.bind at 1.
  rewrite (observationList_ok kind this i b l Hr Hb Hk Hl).
  cbn [fst snd]. unfold Observations.addObservation.
  destruct (Observations.has (objectName o) l); reflexivity.
Qed.

Lemma objectCount_run kind this i b l :
  Facade.backReference kind this = Some i ->
  nth_error (HDB this) i = Some b ->
  Facade.isKind kind b = true ->
  HDB.observations b = Some l ->
  Facade.objectCount kind this = (Ok (List.length l), this).
Proof.
  intros Hr Hb Hk Hl. unfold Facade.objectCount, Facade.bind.
  rewrite (observationList_ok kind this i b l Hr Hb Hk Hl). reflexivity.
Qed.

Lemma backReference_set_HDB kind h b this :
  Facade.backReference kind (Facade.set_bDirty b (Facade.set_HDB h this))
  = Facade.backReference kind this.
Proof. destruct kind; reflexivity. Qed.

(** C5: adding an observation whose identity is already in the list returns
    [false] and leaves the list as it is; a second addition under the same
    identity returns [false], and the count of a list that was empty stays
    1.  The same through [astrometryObjectAdd] and [photometryObjectAdd]. *)
Theorem C5_add_observation_unique :
  (forall o l,
     Observations.has (objectName o) l = true ->
     Observations.addObservation o l = (false, l)) /\
  (forall o o',
     objectName o' = objectName o ->
     Observations.addObservation o [] = (true, [o]) /\
     Observations.addObservation o' [o] = (false, [o]) /\
     Observations.count [o] = 1%nat) /\
  (forall kind this i b l o o',
     Facade.backReference kind this = Some i ->
     nth_error (HDB this) i = Some b ->
     Facade.isKind kind b = true ->
     HDB.observations b = Some l ->
     objectName o' = objectName o ->
     exists r this1,
       Facade.objectAdd kind o this = (Ok r, this1) /\
       Facade.objectAdd kind o' this1 = (Ok false, this1) /\
       (l = [] -> r = true /\
                  Facade.objectCount kind this1 = (Ok 1%nat, this1))).
Proof.
  split; [exact add_existing | split].
  - intros o o' Hname. split; [reflexivity | split; [|reflexivity]].
    apply add_existing. rewrite Hname. cbn.
    rewrite String.eqb_refl. reflexivity.
  - intros kind this i b l o o' Hr Hb Hk Hl Hname.
    rewrite (objectAdd_run kind this i b l o Hr Hb Hk Hl).
    destruct (Observations.has (objectName o) l) eqn:Hhas.
    + exists false, this. split; [reflexivity | split].
      * rewrite (objectAdd_run kind this i b l o' Hr Hb Hk Hl).
        rewrite Hname, Hhas. reflexivity.
      * intros ->. discriminate.
    + set (this1 := Facade.set_bDirty true _).
      destruct (isKind_with_observations kind b (l ++ [o]) Hk) as [Hk1 Hl1].
      assert (Hr1 : Facade.backReference kind this1 = Some i)
        by (unfold this1; rewrite backReference_set_HDB; exact Hr).
      assert (Hb1 : nth_error (HDB this1) i
                    = Some (HDB.with_observations (l ++ [o]) b)).
      { unfold this1. cbn [HDB Facade.set_bDirty Facade.set_HDB].
        rewrite nth_error_update_nth, Nat.eqb_refl, Hb. reflexivity. }
      exists true, this1. split; [reflexivity | split].
      * rewrite (objectAdd_run kind this1 i _ _ o' Hr1 Hb1 Hk1 Hl1).
        rewrite Hname. unfold Observations.has. rewrite existsb_app.
        cbn [existsb]. rewrite String.eqb_refl, orb_true_r. reflexivity.
      * intros ->. split; [reflexivity|].
        apply (objectCount_run kind this1 i _ [o] Hr1 Hb1 Hk1 Hl1).
Qed.

Lemma C5_add_observation_unique_witness :
  Observations.addObservation (mkObservation "star1" 3 4) [Example.star1]
  = (false, [Example.star1]) /\
  (exists r this1,
     Facade.astrometryObjectAdd Example.star1 Example.unobserved
     = (Ok r, this1) /\
     Facade.astrometryObjectAdd (mkObservation "star1" 3 4) this1
     = (Ok false, this1) /\
     r = true /\ Facade.astrometryObjectCount this1 = (Ok 1%nat, this1)).
Proof.
  split.
  - apply (proj1 C5_add_observation_unique). reflexivity.
  - destruct (proj2 (proj2 C5_add_observation_unique) BT_ASTROMETRY
                Example.unobserved 1%nat (CAstrometryHDB [] []) []
                Example.star1 (mkObservation "star1" 3 4)
                eq_refl eq_refl eq_refl eq_refl eq_refl)
      as (r & this1 & H1 & H2 & H3).
    exists r, this1. destruct (H3 eq_refl) as [Hr Hc]. auto.
Defined.

(** ** Crop *)





(** ** The registry *)

Lemma resolve_register e reg f :
  Registry.resolve (snd (Registry.HDBRegisterClass e reg)) f
  = match Registry.resolve reg f with
    | Some x => Some x
    | None => if testFunction e f then Some e else None
    end.
Proof.
  unfold Registry.resolve, Registry.HDBRegisterClass. cbn [snd].
  induction reg as [|x reg IH]; cbn [app find].
  - reflexivity.
  - destruct (testFunction x f); [reflexivity | exact IH].
Qed.

Lemma register_keeps_entries e reg :
  forall n x, nth_error reg n = Some x ->
  nth_error (snd (Registry.HDBRegisterClass e reg)) n = Some x.
Proof.
  intros n x Hn. unfold Registry.HDBRegisterClass. cbn [snd].
  rewrite nth_error_app1; [exact Hn|].
  apply nth_error_Some. rewrite Hn. discriminate.
Qed.

(** C8: registration appends and returns [true]; every entry stays where it
    was; a record that resolved before a registration resolves to the same
    entry after it, and a registration changes nothing for the records its
    test rejects; after two registrations for different signatures, a record
    of each signature resolves to the entry registered for it and is built
    by that entry's constructor. *)
Theorem C8_registry_append_only :
  (forall e reg,
     Registry.HDBRegisterClass e reg = (true, reg ++ [e])) /\
  (forall e reg n x,
     nth_error reg n = Some x ->
     nth_error (snd (Registry.HDBRegisterClass e reg)) n = Some x) /\
  (forall e reg f x,
     Registry.resolve reg f = Some x ->
     Registry.resolve (snd (Registry.HDBRegisterClass e reg)) f = Some x) /\
  (forall e reg f,
     testFunction e f = false ->
     Registry.resolve (snd (Registry.HDBRegisterClass e reg)) f
     = Registry.resolve reg f) /\
  (forall reg e1 e2 f1 f2 this,
     Registry.resolve reg f1 = None ->
     Registry.resolve reg f2 = None ->
     testFunction e1 f1 = true ->
     testFunction e2 f2 = true ->
     testFunction e1 f2 = false ->
     testFunction e2 f1 = false ->
     let reg2 :=
       snd (Registry.HDBRegisterClass e2
              (snd (Registry.HDBRegisterClass e1 reg))) in
     Registry.resolve reg2 f1 = Some e1 /\
     Registry.resolve reg2 f2 = Some e2 /\
     Registry.HDBCreateClass reg2 this f1 = Some (createFunction e1 this f1) /\
     Registry.HDBCreateClass reg2 this f2 = Some (createFunction e2 this f2)).
Proof.
  split; [reflexivity|].
  split; [exact register_keeps_entries|].
  split; [intros e reg f x Hx; rewrite resolve_register, Hx; reflexivity|].
  split.
  - intros e reg f He. rewrite resolve_register, He.
    destruct (Registry.resolve reg f); reflexivity.
  - intros reg e1 e2 f1 f2 this Hn1 Hn2 H11 H22 H12 H21 reg2.
    assert (R1 : Registry.resolve reg2 f1 = Some e1).
    { unfold reg2. rewrite !resolve_register, Hn1, H11. reflexivity. }
    assert (R2 : Registry.resolve reg2 f2 = Some e2).
    { unfold reg2. rewrite !resolve_register, Hn2, H12, H22. reflexivity. }
    unfold Registry.HDBCreateClass. rewrite R1, R2. auto.
Qed.

Lemma C8_registry_append_only_witness :
  let reg2 :=
    snd (Registry.HDBRegisterClass Example.table_entry
           (snd (Registry.HDBRegisterClass Example.image_entry []))) in
  Registry.resolve reg2 (mkfitsfile "IMAGE" [] []) = Some Example.image_entry /\
  Registry.resolve reg2 (mkfitsfile "BINTABLE" [] [])
  = Some Example.table_entry /\
  Registry.HDBCreateClass reg2 Example.empty (mkfitsfile "IMAGE" [] [])
  = Some (CImageHDB [] (mkCAstroImage 0 0 []) None None) /\
  Registry.HDBCreateClass reg2 Example.empty (mkfitsfile "BINTABLE" [] [])
  = Some (CHDBBinTable []).
Proof.
  exact (proj2 (proj2 (proj2 (proj2 C8_registry_append_only))) []
           Example.image_entry Example.table_entry
           (mkfitsfile "IMAGE" [] []) (mkfitsfile "BINTABLE" [] [])
           Example.empty eq_refl eq_refl eq_refl eq_refl eq_refl eq_refl).
Defined.

(** ** The shape of the facade's member functions *)


























(** ** Failure, the dirty flag and the data flag *)








(** C10: [isDirty(b)] assigns [b] to [bDirty] and [hasData(b)] assigns [b]
    to [bHasData]; neither throws nor changes another member, and
    [isDirty(false)] clears the flag of any aggregate, the blocks being what
    they were. *)
Theorem C10_flag_setters (this : CAstroFile) (b : bool) :
  Facade.isDirty_set b this
  = (Ok tt,
     mkCAstroFile (astrometryHDB_ this) (photometryHDB_ this) (imageName_ this)
       (observationLocation this) (observationWeather this)
       (observationTime this) (observationTarget this)
       (observationTelescope this) (HDB this) b (bHasData this)) /\
  Facade.hasData_set b this
  = (Ok tt,
     mkCAstroFile (astrometryHDB_ this) (photometryHDB_ this) (imageName_ this)
       (observationLocation this) (observationWeather this)
       (observationTime this) (observationTarget this)
       (observationTelescope this) (HDB this) (bDirty this) b) /\
  Facade.isDirty (snd (Facade.isDirty_set b this))
  = (Ok b, snd (Facade.isDirty_set b this)) /\
  Facade.hasData (snd (Facade.hasData_set b this))
  = (Ok b, snd (Facade.hasData_set b this)) /\
  bDirty (snd (Facade.isDirty_set false this)) = false /\
  HDB (snd (Facade.isDirty_set false this)) = HDB this.
Proof. repeat split. Qed.

(** * More properties of the source *)

(** ** The integer views of [CFITSKeywordUInt16] *)

(** X1: for a keyword holding a 16-bit unsigned value the lower-bound test
    of [operator std::int16_t()] is always true: the view throws exactly when
    the value is at least 32768, and when it returns, the result is not
    negative and is what the unsigned 16-bit, signed 32-bit, signed 64-bit
    and unsigned 32-bit views return. *)
Theorem X1_int16_view_of_unsigned (k : CFITSKeywordUInt16) (H : UInt16.wf k) :
  (value_ k >=? Int.smin 16) = true /\
  (UInt16.operator_int16_t k = Throw RangeError <-> 32768 <= value_ k) /\
  (forall v,
     UInt16.operator_int16_t k = Ok v ->
     0 <= v <= 32767 /\
     UInt16.operator_uint16_t k = Ok v /\
     UInt16.operator_int32_t k = Ok v /\
     UInt16.operator_int64_t k = Ok v /\
     UInt16.operator_uint32_t k = Ok v).
Proof.
  pose proof H as [H0 H1]. unfold Int.umax in H1.
  change (2 ^ 16 - 1) with 65535 in H1.
  assert (Hlow : (value_ k >=? Int.smin 16) = true).
  { change (Int.smin 16) with (-32768).
    destruct (Z.geb_spec (value_ k) (-32768)); [reflexivity | lia]. }
  split; [exact Hlow|].
  unfold UInt16.operator_int16_t. rewrite Hlow, andb_true_r.
  change (Int.smax 16) with 32767.
  destruct (Z.leb_spec (value_ k) 32767) as [Hle|Hgt].
  - assert (Hs : Int.in_signed 16 (value_ k)).
    { unfold Int.in_signed. change (Int.smax 16) with 32767.
      change (Int.smin 16) with (-32768). lia. }
    rewrite (cast_signed_id 16 (value_ k) eq_refl Hs).
    split; [split; [discriminate | lia]|].
    intros v [= <-]. split; [lia|].
    unfold UInt16.operator_uint16_t, UInt16.operator_int32_t,
      UInt16.operator_int64_t, UInt16.operator_uint32_t.
    rewrite (cast_signed_id 32), (cast_signed_id 64), (cast_unsigned_id 32);
      try lia; try (apply unsigned16_in_signed; [lia | exact H]);
      try (apply unsigned16_in_unsigned; [lia | exact H]).
    repeat split.
  - split; [split; [intros _; lia | reflexivity] | discriminate].
Qed.

Lemma X1_int16_view_of_unsigned_witness :
  UInt16.operator_int16_t (UInt16.create "NAXIS1" 32768 "") = Throw RangeError /\
  UInt16.operator_int64_t (UInt16.create "NAXIS1" 32767 "") = Ok 32767.
Proof.
  assert (W : forall v, 0 <= v <= 65535 ->
              UInt16.wf (UInt16.create "NAXIS1" v "")).
  { intros v Hv. unfold UInt16.wf, UInt16.create, Int.in_unsigned. cbn [value_].
    rewrite cast_unsigned_id; unfold Int.in_unsigned, Int.umax;
      change (2 ^ 16 - 1) with 65535; lia. }
  split.
  - apply (proj1 (proj2 (X1_int16_view_of_unsigned _ (W 32768 ltac:(lia))))).
    cbn. lia.
  - apply (proj2 (proj2 (X1_int16_view_of_unsigned _ (W 32767 ltac:(lia))))).
    reflexivity.
Defined.

(** ** The string view *)

Lemma digit_value_digit_char d :
  0 <= d < 10 -> digit_value (digit_char d) = Some d.
Proof.
  intros Hd.
  assert (E : d = 0 \/ d = 1 \/ d = 2 \/ d = 3 \/ d = 4 \/ d = 5 \/ d = 6 \/
              d = 7 \/ d = 8 \/ d = 9) by lia.
  repeat (destruct E as [->|E]; [reflexivity|]). subst d. reflexivity.
Qed.

Lemma parse_digits_app p q : forall a,
  parse_digits (p ++ q) a
  = match parse_digits p a with
    | Some a' => parse_digits q a'
    | None => None
    end.
Proof.
  induction p as [|c p IH]; intros a; cbn [append parse_digits];
    [reflexivity|].
  destruct (digit_value c); [apply IH | reflexivity].
Qed.

Lemma length_app_one p c :
  String.length (p ++ String c EmptyString) = S (String.length p).
Proof. induction p as [|x p IH]; cbn; [reflexivity | rewrite IH; reflexivity]. Qed.

Lemma app_one_app p c acc :
  ((p ++ String c EmptyString) ++ acc)%string = (p ++ String c acc)%string.
Proof. induction p as [|x p IH]; cbn; [reflexivity | rewrite IH; reflexivity]. Qed.

(** What the digit loop writes in front of [acc]: the numeral of [n], of as
    many digits as [n] has. *)
Lemma decimal_digits_spec fuel : forall n acc,
  0 <= n < 10 ^ Z.of_nat fuel -> (0 < fuel)%nat ->
  exists p,
    decimal_digits fuel n acc = (p ++ acc)%string /\
    (forall a,
       parse_digits p a = Some (a * 10 ^ Z.of_nat (String.length p) + n)) /\
    (1 <= String.length p <= fuel)%nat /\
    (0 < n -> 10 ^ (Z.of_nat (String.length p) - 1) <= n).
Proof.
  induction fuel as [|fuel IH]; intros n acc Hn Hfuel; [lia|].
  cbn [decimal_digits]. cbv zeta.
  destruct (Z.eqb_spec (n / 10) 0) as [Hq|Hq].
  - assert (Hsmall : 0 <= n < 10).
    { apply Z.div_small_iff in Hq; lia. }
    exists (String (digit_char (n mod 10)) EmptyString).
    rewrite Z.mod_small by exact Hsmall.
    split; [reflexivity | split; [|split]].
    + intros a. cbn [parse_digits]. rewrite digit_value_digit_char by exact Hsmall.
      cbn [String.length]. change (10 ^ Z.of_nat 1) with 10. reflexivity.
    + cbn [String.length]. lia.
    + intros Hpos. cbn [String.length]. change (10 ^ (Z.of_nat 1 - 1)) with 1. lia.
  - assert (Hpow : 10 ^ Z.of_nat (S fuel) = 10 * 10 ^ Z.of_nat fuel).
    { rewrite Nat2Z.inj_succ, Z.pow_succ_r by lia. reflexivity. }
    assert (Hdiv : 0 < n / 10 < 10 ^ Z.of_nat fuel).
    { split.
      - assert (0 <= n / 10) by (apply Z.div_pos; lia). lia.
      - apply Z.div_lt_upper_bound; lia. }
    assert (Hf : (0 < fuel)%nat).
    { destruct fuel; [|lia]. cbn in Hdiv. lia. }
    destruct (IH (n / 10) (String (digit_char (n mod 10)) acc)
                ltac:(lia) Hf) as (p & Hp & Hparse & Hlen & Hlow).
    exists (p ++ String (digit_char (n mod 10)) EmptyString)%string.
    assert (Hmod : 0 <= n mod 10 < 10) by (apply Z.mod_pos_bound; lia).
    pose proof (Z.div_mod n 10 ltac:(lia)) as Hdm.
    split; [rewrite app_one_app; exact Hp | split; [|split]].
    + intros a. rewrite parse_digits_app, Hparse. cbn [parse_digits].
      rewrite digit_value_digit_char by exact Hmod.
      rewrite length_app_one, Nat2Z.inj_succ, Z.pow_succ_r by lia.
      f_equal. lia.
    + rewrite length_app_one. lia.
    + intros _. rewrite length_app_one, Nat2Z.inj_succ.
      replace (Z.succ (Z.of_nat (String.length p)) - 1)
        with (Z.succ (Z.of_nat (String.length p) - 1)) by lia.
      rewrite Z.pow_succ_r by lia.
      specialize (Hlow ltac:(lia)). lia.
Qed.

Lemma to_string_spec n :
  0 <= n <= 2147483647 ->
  parse_decimal (to_string n) = Some n /\
  (1 <= String.length (to_string n) <= 10)%nat /\
  (0 < n -> 10 ^ (Z.of_nat (String.length (to_string n)) - 1) <= n).
Proof.
  intros Hn. unfold to_string.
  destruct (Z.ltb_spec n 0) as [Hneg|_]; [lia|].
  destruct (decimal_digits_spec 10 n EmptyString) as (p & Hp & Hparse & Hlen & Hlow);
    [change (10 ^ Z.of_nat 10) with 10000000000; lia | lia |].
  assert (Hnil : forall q : string, (q ++ EmptyString)%string = q).
  { induction q as [|c q IHq]; cbn; [reflexivity | rewrite IHq; reflexivity]. }
  rewrite Hp, Hnil. split; [|split; [exact Hlen | exact Hlow]].
  unfold parse_decimal. destruct p as [|c p]; [cbn in Hlen; lia|].
  rewrite Hparse. reflexivity.
Qed.



(** ** No view wider than the value loses it *)

Lemma denotes_unique f a b : FP.denotes f a -> FP.denotes f b -> a = b.
Proof.
  intros (q & Hq & Ha) (q' & Hq' & Hb). rewrite Hq in Hq'.
  injection Hq' as <-. rewrite Ha in Hb. unfold Qeq in Hb. cbn in Hb. lia.
Qed.

Lemma float_view_denotes v :
  Int.in_unsigned 16 v ->
  FP.denotes (FP.float_of_Z v) v /\ FP.denotes (FP.double_of_Z v) v.
Proof.
  intros Hv. pose proof (wider_views_agree_all v Hv) as Hc.
  unfold UInt16.wider_views_agree, UInt16.operator_float,
    UInt16.operator_double, UInt16.operator_string in Hc.
  cbn [value_] in Hc.
  apply andb_true_iff in Hc. destruct Hc as [Hc _].
  apply andb_true_iff in Hc. destruct Hc as [Hf Hd].
  split; apply denotesb_denotes; assumption.
Qed.

(** X4: two keywords holding 16-bit unsigned values that agree in one of the
    signed 32-bit, signed 64-bit, unsigned 32-bit, float, double or string
    views hold the same value: none of these views maps two values to one
    result. *)
Theorem X4_wider_views_lossless (k1 k2 : CFITSKeywordUInt16)
  (H1 : UInt16.wf k1) (H2 : UInt16.wf k2) :
  (UInt16.operator_int32_t k1 = UInt16.operator_int32_t k2 ->
   value_ k1 = value_ k2) /\
  (UInt16.operator_int64_t k1 = UInt16.operator_int64_t k2 ->
   value_ k1 = value_ k2) /\
  (UInt16.operator_uint32_t k1 = UInt16.operator_uint32_t k2 ->
   value_ k1 = value_ k2) /\
  (UInt16.operator_float k1 = UInt16.operator_float k2 ->
   value_ k1 = value_ k2) /\
  (UInt16.operator_double k1 = UInt16.operator_double k2 ->
   value_ k1 = value_ k2) /\
  (UInt16.operator_string k1 = UInt16.operator_string k2 ->
   value_ k1 = value_ k2).
Proof.
  unfold UInt16.wf in H1, H2.
  assert (S32 : forall v, Int.in_unsigned 16 v -> Int.cast_signed 32 v = v)
    by (intros v Hv; apply cast_signed_id;
        [lia | apply unsigned16_in_signed; [lia | exact Hv]]).
  assert (S64 : forall v, Int.in_unsigned 16 v -> Int.cast_signed 64 v = v)
    by (intros v Hv; apply cast_signed_id;
        [lia | apply unsigned16_in_signed; [lia | exact Hv]]).
  assert (U32 : forall v, Int.in_unsigned 16 v -> Int.cast_unsigned 32 v = v)
    by (intros v Hv; apply cast_unsigned_id;
        [lia | apply unsigned16_in_unsigned; [lia | exact Hv]]).
  destruct (float_view_denotes _ H1) as [F1 D1].
  destruct (float_view_denotes _ H2) as [F2 D2].
  repeat split.
  - unfold UInt16.operator_int32_t. rewrite !S32 by assumption. congruence.
  - unfold UInt16.operator_int64_t. rewrite !S64 by assumption. congruence.
  - unfold UInt16.operator_uint32_t. rewrite !U32 by assumption. congruence.
  - unfold UInt16.operator_float. intros [= E]. rewrite E in F1.
    exact (denotes_unique _ _ _ F1 F2).
  - unfold UInt16.operator_double. intros [= E]. rewrite E in D1.
    exact (denotes_unique _ _ _ D1 D2).
  - unfold UInt16.operator_string. intros [= E].
    assert (R : forall v, Int.in_unsigned 16 v ->
                parse_decimal (to_string v) = Some v).
    { intros v [Hv0 Hv1]. unfold Int.umax in Hv1.
      change (2 ^ 16 - 1) with 65535 in Hv1. apply to_string_spec. lia. }
    pose proof (R _ H1) as R1. pose proof (R _ H2) as R2.
    rewrite E in R1. congruence.
Qed.

Lemma X4_wider_views_lossless_witness :
  value_ (mkCFITSKeywordUInt16 "A" 65535 "")
  = value_ (mkCFITSKeywordUInt16 "B" 65535 "first").
Proof.
  assert (W : forall n c, UInt16.wf (mkCFITSKeywordUInt16 n 65535 c)).
  { intros n c. unfold UInt16.wf, Int.in_unsigned, Int.umax. cbn. lia. }
  apply (proj2 (proj2 (proj2 (proj2 (proj2
           (X4_wider_views_lossless _ _ (W "A"%string ""%string)
              (W "B"%string "first"%string))))))).
  reflexivity.
Defined.

(** ** The member functions defined in the class *)

Lemma inline_run c this :
  exists v,
    Inline.run c this
    = (Ok v,
       mkCAstroFile (astrometryHDB_ this) (photometryHDB_ this)
         (Inline.lastName [c] (imageName_ this))
         (observationLocation this) (observationWeather this)
         (observationTime this) (observationTarget this)
         (observationTelescope this) (HDB this)
         (Inline.lastDirty [c] (bDirty this))
         (Inline.lastHasData [c] (bHasData this))).
Proof. destruct this, c; eexists; reflexivity. Qed.

(** X5: whatever calls of [isDirty()], [hasData()], [isDirty(b)],
    [hasData(b)], [imageName(name)], [HDBCount()] and
    [getObservationTelescope()] are made one after the other, none throws,
    each returns, the blocks, the back-references and the observation context
    are as before, and each of [bDirty], [bHasData] and [imageName_] holds
    the argument of the last call of its setter, or what it held when there
    was none. *)
Theorem X5_inline_calls (cs : list Inline.Call) (this : CAstroFile) :
  exists vs,
    Inline.runAll cs this
    = (Ok vs,
       mkCAstroFile (astrometryHDB_ this) (photometryHDB_ this)
         (Inline.lastName cs (imageName_ this))
         (observationLocation this) (observationWeather this)
         (observationTime this) (observationTarget this)
         (observationTelescope this) (HDB this)
         (Inline.lastDirty cs (bDirty this))
         (Inline.lastHasData cs (bHasData this))) /\
    List.length vs = List.length cs.
Proof.
  revert this. induction cs as [|c rest IH]; intros this.
  - exists []. destruct this. split; reflexivity.
  - destruct (inline_run c this) as [v Hv].
    cbn [Inline.runAll]. unfold Facade.bind. rewrite Hv.
    match goal with
    | |- context [Inline.runAll rest ?s] => destruct (IH s) as (vs & Hvs & Hlen)
    end.
    rewrite Hvs. exists (v :: vs).
    split; [|cbn [List.length]; rewrite Hlen; reflexivity].
    cbn [Facade.ret astrometryHDB_ photometryHDB_ imageName_
           observationLocation observationWeather observationTime
           observationTarget observationTelescope HDB bDirty bHasData].
    destruct c; reflexivity.
Qed.

